(** * Hyperscript virtual-node builder and renderer

    A shallow embedding of
    [devtools/server/actors/highlighters/utils/hyper-script.js] (the
    builder: [matchSelector], [isVNode], [createVNode], [h], [DOM]) and of
    [utils/renderer.js] (the [Renderer] class), together with the part of
    the JavaScript runtime these two files rely on: a store of objects
    addressed by reference, property lookup and assignment, the [in]
    operator, truthiness, [Array.prototype.concat], [filter] and [join].

    JavaScript objects are mutable and passed by reference; [createVNode]
    writes to the [properties] object it is given.  The store is therefore
    explicit: a value is a primitive or a reference into a list of objects,
    and every operation of the source is a computation in a state-and-error
    monad over that store. *)

From Stdlib Require Import ZArith Ascii String DecimalString.
From stdpp Require Import base list strings gmap.

Open Scope string_scope.
Open Scope list_scope.

(** ** Strings

    A JavaScript string is a sequence of UTF-16 code units; the embedding
    uses Rocq strings, one character per code unit.  [\w] only ever matches
    ASCII letters, digits and the underscore, so every tag name a selector
    can yield is ASCII and [toUpperCase] is exact on it. *)

Definition in_range (lo hi c : ascii) : bool :=
  Ascii.leb lo c && Ascii.leb c hi.

Definition is_lower (c : ascii) : bool := in_range "a" "z" c.
Definition is_upper (c : ascii) : bool := in_range "A" "Z" c.
Definition is_digit (c : ascii) : bool := in_range "0" "9" c.

(** The character class [[\w+_-]]. *)
Definition is_word (c : ascii) : bool :=
  is_lower c || is_upper c || is_digit c
  || Ascii.eqb c "_" || Ascii.eqb c "+" || Ascii.eqb c "-".

(** The character class [[#.]], and its complement [[^#.]]. *)
Definition is_hash_dot (c : ascii) : bool :=
  Ascii.eqb c "#" || Ascii.eqb c ".".
Definition not_hash_dot (c : ascii) : bool := negb (is_hash_dot c).

Fixpoint take_while (p : ascii -> bool) (s : string) : string :=
  match s with
  | String c r => if p c then String c (take_while p r) else ""
  | EmptyString => ""
  end.

Fixpoint drop_while (p : ascii -> bool) (s : string) : string :=
  match s with
  | String c r => if p c then drop_while p r else s
  | EmptyString => ""
  end.

(** [s.substr(n)]: the suffix of [s] from index [n]. *)
Fixpoint substr (n : nat) (s : string) : string :=
  match n, s with
  | S n', String _ r => substr n' r
  | _, _ => s
  end.

(** [s.startsWith(p)]. *)
Definition startsWith (s p : string) : bool := String.prefix p s.

Definition upper_char (c : ascii) : ascii :=
  if is_lower c then ascii_of_nat (nat_of_ascii c - 32) else c.

Fixpoint toUpperCase (s : string) : string :=
  match s with
  | String c r => String (upper_char c) (toUpperCase r)
  | EmptyString => ""
  end.

(** [s[0]]: the first code unit as a string, [None] standing for
    [undefined]. *)
Definition char0 (s : string) : option string :=
  match s with
  | String c _ => Some (String c "")
  | EmptyString => None
  end.

Fixpoint join_strings (sep : string) (l : list string) : string :=
  match l with
  | [] => ""
  | [x] => x
  | x :: r => x +:+ sep +:+ join_strings sep r
  end.

(** ** The selector regular expression

    [selector.match(/[\w+_-]+|[#.][^#.]+/g)] collects, from left to right,
    every match of the pattern: at each position the first alternative (a
    longest run of word characters) is tried, then the second (a [#] or [.]
    followed by a longest non-empty run of characters other than [#] and
    [.]); where neither matches the scan moves one character on.  A match
    is never empty, so each step consumes at least one character and the
    length of the string is enough fuel. *)

Fixpoint scan (fuel : nat) (s : string) : list string :=
  match fuel with
  | O => []
  | S fuel' =>
      match s with
      | EmptyString => []
      | String c r =>
          if is_word c then
            take_while is_word s :: scan fuel' (drop_while is_word s)
          else if is_hash_dot c then
            match r with
            | String d _ =>
                if not_hash_dot d then
                  String c (take_while not_hash_dot r)
                    :: scan fuel' (drop_while not_hash_dot r)
                else scan fuel' r
            | EmptyString => []
            end
          else scan fuel' r
      end
  end.

Definition match_all (s : string) : list string := scan (String.length s) s.

(** [String.prototype.match] with a global pattern returns [null], not an
    empty array, when nothing matches: [None] here. *)
Definition regex_match (s : string) : option (list string) :=
  match match_all s with
  | [] => None
  | l => Some l
  end.

(** [const matchSelector = (selector) =>
      selector ? selector.match(/[\w+_-]+|[#.][^#.]+/g) : [];]
    The empty string is falsy. *)
Definition matchSelector (selector : string) : option (list string) :=
  match selector with
  | EmptyString => Some []
  | _ => regex_match selector
  end.

(** Whether a token starts somewhere in [s]: at a word character, or at a
    [#] or [.] that is followed by a character other than [#] and [.]. *)
Fixpoint has_token (s : string) : bool :=
  match s with
  | EmptyString => false
  | String c r =>
      is_word c
      || (is_hash_dot c
          && match r with
             | String d _ => not_hash_dot d
             | EmptyString => false
             end)
      || has_token r
  end.

(** ** Values and the object store *)

Abbreviation loc := nat.

Inductive value : Type :=
  | VUndefined
  | VNull
  | VBool (b : bool)
  | VNum (n : Z)
  | VStr (s : string)
  | VRef (l : loc).

(** Own properties in insertion order, as [Object.keys] lists them. *)
Abbreviation fields := (list (string * value)).

(** A plain object, or an array: its elements and, as any object, named
    properties. *)
Inductive object : Type :=
  | JObj (fs : fields)
  | JArr (elems : list value) (fs : fields).

Abbreviation heap := (list object).

Global Instance value_eq_dec : EqDecision value.
Proof. solve_decision. Defined.

Global Instance object_eq_dec : EqDecision object.
Proof. solve_decision. Defined.

Fixpoint get_field (k : string) (fs : fields) : option value :=
  match fs with
  | [] => None
  | (k', v) :: r => if String.eqb k k' then Some v else get_field k r
  end.

Definition has_field (k : string) (fs : fields) : bool :=
  match get_field k fs with Some _ => true | None => false end.

(** Assignment keeps the position of an existing key and appends a new
    one. *)
Fixpoint set_field (k : string) (v : value) (fs : fields) : fields :=
  match fs with
  | [] => [(k, v)]
  | (k', v') :: r =>
      if String.eqb k k' then (k, v) :: r else (k', v') :: set_field k v r
  end.

Fixpoint delete_field (k : string) (fs : fields) : fields :=
  match fs with
  | [] => []
  | (k', v') :: r =>
      if String.eqb k k' then delete_field k r
      else (k', v') :: delete_field k r
  end.

Definition obj_fields (o : object) : fields :=
  match o with
  | JObj fs => fs
  | JArr _ fs => fs
  end.

Definition map_fields (f : fields -> fields) (o : object) : object :=
  match o with
  | JObj fs => JObj (f fs)
  | JArr es fs => JArr es (f fs)
  end.

(** The named properties of the object at [l]. *)
Definition fields_at (hp : heap) (l : loc) : fields :=
  match hp !! l with
  | Some o => obj_fields o
  | None => []
  end.

(** [Array.isArray(v)] and the elements of an array. *)
Definition elems_at (hp : heap) (l : loc) : option (list value) :=
  match hp !! l with
  | Some (JArr es _) => Some es
  | _ => None
  end.

(** ** The state-and-error monad *)

(** [InternalError] is the engine's "too much recursion". *)
Inductive error : Type := TypeError | InternalError.

Inductive result (A : Type) : Type :=
  | Ok (a : A)
  | Throw (e : error).
Arguments Ok {A} a.
Arguments Throw {A} e.

Definition M (A : Type) : Type := heap -> result (A * heap).

Definition ret {A} (a : A) : M A := fun hp => Ok (a, hp).
Definition throw {A} (e : error) : M A := fun _ => Throw e.
Definition bind {A B} (m : M A) (k : A -> M B) : M B :=
  fun hp =>
    match m hp with
    | Ok (a, hp') => k a hp'
    | Throw e => Throw e
    end.

Notation "'let*' x ':=' m 'in' k" := (bind m (fun x => k))
  (at level 10, x pattern, m at level 100, k at level 200).
Notation "m ';;' k" := (bind m (fun _ => k))
  (at level 100, k at level 200, right associativity).

Definition get_heap : M heap := fun hp => Ok (hp, hp).

(** Allocation of a fresh object: the next free location. *)
Definition alloc (o : object) : M value :=
  fun hp => Ok (VRef (length hp), hp ++ [o]).

Definition when (b : bool) (m : M unit) : M unit :=
  if b then m else ret tt.

Fixpoint foldM {A B} (f : A -> B -> M A) (l : list B) (a : A) : M A :=
  match l with
  | [] => ret a
  | x :: r => let* a' := f a x in foldM f r a'
  end.

(** ** Runtime operations used by the source *)

(** Truthiness ([ToBoolean]). *)
Definition truthy (v : value) : bool :=
  match v with
  | VUndefined | VNull => false
  | VBool b => b
  | VNum n => negb (n =? 0)%Z
  | VStr s => negb (String.eqb s "")
  | VRef _ => true
  end.

(** [v != null]: false for [null] and [undefined] only. *)
Definition not_nullish (v : value) : bool :=
  match v with
  | VUndefined | VNull => false
  | _ => true
  end.

(** [k in v].  The operator raises a [TypeError] when its right operand is
    not an object.  The only keys the source asks for ([tagName],
    [properties], [id], [className], [class]) are neither inherited from
    [Object.prototype] or [Array.prototype] nor array indices, so own named
    properties decide. *)
Definition js_in (k : string) (v : value) : M bool :=
  match v with
  | VRef l => fun hp => Ok (has_field k (fields_at hp l), hp)
  | _ => throw TypeError
  end.

(** [v.k].  Reading a property of [undefined] or [null] raises; a missing
    property, and any of the keys the source reads on a boolean, number or
    string, gives [undefined]. *)
Definition js_get (v : value) (k : string) : M value :=
  match v with
  | VRef l =>
      fun hp => Ok (default VUndefined (get_field k (fields_at hp l)), hp)
  | VUndefined | VNull => throw TypeError
  | _ => ret VUndefined
  end.

(** [v.k = x], in strict mode: assigning to a property of a primitive
    raises. *)
Definition js_set (v : value) (k : string) (x : value) : M unit :=
  match v with
  | VRef l => fun hp => Ok (tt, alter (map_fields (set_field k x)) l hp)
  | _ => throw TypeError
  end.

(** [delete v.k]. *)
Definition js_delete (v : value) (k : string) : M unit :=
  match v with
  | VRef l => fun hp => Ok (tt, alter (map_fields (delete_field k)) l hp)
  | VUndefined | VNull => throw TypeError
  | _ => ret tt
  end.

(** [ToString].  An array prints its elements separated by commas, a plain
    object prints as ["[object Object]"].  Arrays nest through the store,
    hence the fuel; the number of objects in the store is enough for any
    array that does not contain itself.

    The conversion is that of the engine on strings, booleans, [undefined],
    [null], integers of fewer than 22 digits, and objects and arrays that
    have no [toString], [valueOf] or [join] of their own and do not contain
    themselves.  Outside this range the engine prints a number with an
    exponent, raises on an own [toString] that cannot be called, and prints
    an array met again inside its own [join] as the empty string; where a
    theorem gives the text of a joined [className], it gives it for a
    [className] that is a string. *)
Fixpoint to_string (fuel : nat) (hp : heap) (v : value) {struct fuel} : string :=
  match v with
  | VUndefined => "undefined"
  | VNull => "null"
  | VBool true => "true"
  | VBool false => "false"
  | VNum n => NilZero.string_of_int (Z.to_int n)
  | VStr s => s
  | VRef l =>
      match fuel with
      | O => ""
      | S fuel' =>
          match elems_at hp l with
          | Some es =>
              join_strings ","
                (map (fun e => if not_nullish e then to_string fuel' hp e
                               else "") es)
          | None => "[object Object]"
          end
      end
  end.

(** [l.join(sep)]: [undefined] and [null] elements print as the empty
    string. *)
Definition array_join (sep : string) (hp : heap) (l : list value) : string :=
  join_strings sep
    (map (fun e => if not_nullish e then to_string (length hp) hp e else "") l).

(** [[].concat(...args)]: an argument that is an array contributes its
    elements, any other argument contributes itself. *)
Definition concat_spread (hp : heap) (args : list value) : list value :=
  flat_map (fun a =>
              match a with
              | VRef l =>
                  match elems_at hp l with
                  | Some es => es
                  | None => [a]
                  end
              | _ => [a]
              end) args.

(** ** hyper-script.js *)

Definition SVG_NS : string := "http://www.w3.org/2000/svg".

Definition SVG_TAG_NAMES : list string := [
  "altGlyph"; "altGlyphDef"; "altGlyphItem"; "animate"; "animateColor";
  "animateMotion"; "animateTransform"; "circle"; "clipPath"; "colorProfile";
  "cursor"; "defs"; "desc"; "ellipse"; "feBlend"; "feColorMatrix";
  "feComponentTransfer"; "feComposite"; "feConvolveMatrix"; "feDiffuseLighting";
  "feDisplacementMap"; "feDistantLight"; "feFlood"; "feFuncA"; "feFuncB";
  "feFuncG"; "feFuncR"; "feGaussianBlur"; "feImage"; "feMerge"; "feMergeNode";
  "feMorphology"; "feOffset"; "fePointLight"; "feSpecularLighting";
  "feSpotlight"; "feTile"; "feTurbulence"; "filter"; "font"; "fontFace";
  "fontFaceFormat"; "fontFaceName"; "fontFaceSrc"; "fontFaceUri";
  "foreignObject"; "g"; "glyph"; "glyphRef"; "hkern"; "image"; "line";
  "linearGradient"; "marker"; "mask"; "metadata"; "missingGlyph"; "mpath";
  "path"; "pattern"; "polygon"; "polyline"; "radialGradient"; "rect"; "script";
  "set"; "stop"; "style"; "switch"; "symbol"; "text"; "textPath"; "title";
  "tref"; "tspan"; "use"; "view"; "vkern"
].

Definition HTML_TAG_NAMES : list string := [
  "a"; "abbr"; "acronym"; "address"; "applet"; "area"; "article"; "aside"; "audio"; "b";
  "base"; "basefont"; "bdi"; "bdo"; "bgsound"; "big"; "blink"; "blockquote"; "body"; "br";
  "button"; "canvas"; "caption"; "center"; "cite"; "code"; "col"; "colgroup"; "command";
  "content"; "data"; "datalist"; "dd"; "del"; "details"; "dfn"; "dialog"; "dir"; "div";
  "dl"; "dt"; "element"; "em"; "embed"; "fieldset"; "figcaption"; "figure"; "font";
  "footer"; "form"; "frame"; "frameset"; "h1"; "h2"; "h3"; "h4"; "h5"; "h6"; "head";
  "header"; "hgroup"; "hr"; "html"; "i"; "iframe"; "image"; "img"; "input"; "ins";
  "isindex"; "kbd"; "keygen"; "label"; "legend"; "li"; "link"; "listing"; "main"; "map";
  "mark"; "marquee"; "math"; "menu"; "menuitem"; "meta"; "meter"; "multicol"; "nav";
  "nextid"; "nobr"; "noembed"; "noframes"; "noscript"; "object"; "ol"; "optgroup";
  "option"; "output"; "p"; "param"; "picture"; "plaintext"; "pre"; "progress"; "q"; "rb";
  "rbc"; "rp"; "rt"; "rtc"; "ruby"; "s"; "samp"; "script"; "section"; "select"; "shadow";
  "slot"; "small"; "source"; "spacer"; "span"; "strike"; "strong"; "style"; "sub";
  "summary"; "sup"; "svg"; "table"; "tbody"; "td"; "template"; "textarea"; "tfoot"; "th";
  "thead"; "time"; "title"; "tr"; "track"; "tt"; "u"; "ul"; "var"; "video"; "wbr"; "xmp"
].

(** [const isVNode = (target) =>
      "tagName" in target && "properties" in target;] *)
Definition isVNode (target : value) : M bool :=
  let* t := js_in "tagName" target in
  if t then js_in "properties" target else ret false.

(** The local variables the [for ... of] loop of [createVNode] updates. *)
Record locals : Type := Locals {
  id : string;
  classes : list value;
  tagName : string
}.

(** [part[0] === c]. *)
Definition first_is (c : ascii) (part : string) : bool :=
  match part with
  | String d _ => Ascii.eqb d c
  | EmptyString => false
  end.

(** One iteration of the loop over [parts]. *)
Definition part_step (properties : value) (st : locals) (part : string)
  : M locals :=
  if first_is "#" part then
    ret (Locals (substr 1 part) (classes st) (tagName st))
  else if first_is "." part then
    ret (Locals (id st) (classes st ++ [VStr (substr 1 part)]) (tagName st))
  else if startsWith part "svg:" then
    js_set properties "xmlns" (VStr SVG_NS) ;;
    ret (Locals (id st) (classes st) (substr 4 part))
  else
    when (String.eqb part "svg") (js_set properties "xmlns" (VStr SVG_NS)) ;;
    ret (Locals (id st) (classes st) part).

(** [function createVNode(selector, properties, ...args)].  The arrays that
    [[]] and [concat] allocate on the way to [children] are unreachable
    once [filter] has returned and are not kept in the store. *)
Definition createVNode (selector : string) (properties : value)
    (args : list value) : M value :=
  let parts := matchSelector selector in
  (* properties = properties || {} *)
  let* properties :=
    (if truthy properties then ret properties else alloc (JObj [])) in
  (* for (let part of parts): null is not iterable *)
  let* parts :=
    (match parts with Some ps => ret ps | None => throw TypeError end) in
  let* st := foldM (part_step properties) parts (Locals "" [] "div") in
  (* if (id && !("id" in properties)) properties.id = id *)
  (if truthy (VStr (id st)) then
     let* b := js_in "id" properties in
     when (negb b) (js_set properties "id" (VStr (id st)))
   else ret tt) ;;
  (* if (!properties.xmlns) tagName = tagName.toUpperCase() *)
  let* xmlns := js_get properties "xmlns" in
  let tagName := if truthy xmlns then tagName st
                 else toUpperCase (tagName st) in
  (* if ("className" in properties) classes.push(properties.className) *)
  let* hasClassName := js_in "className" properties in
  let* classes :=
    (if hasClassName then
       let* c := js_get properties "className" in ret (classes st ++ [c])
     else ret (classes st)) in
  (if (0 <? length classes)%nat then
     let* hasClass := js_in "class" properties in
     (if hasClass then
        let* c := js_get properties "class" in
        js_set properties "className" c ;;
        js_delete properties "class"
      else ret tt) ;;
     let* hp := get_heap in
     js_set properties "className" (VStr (array_join " " hp classes))
   else ret tt) ;;
  (* let children = [].concat(...args).filter(v => v != null) *)
  let* hp := get_heap in
  let* children :=
    alloc (JArr (List.filter not_nullish (concat_spread hp args)) []) in
  alloc (JObj [("tagName", VStr tagName);
               ("properties", properties);
               ("children", children)]).

(** [".#".includes(first[0])]: [first[0]] is a one-character string, or
    [undefined], which [includes] reads as the text ["undefined"]. *)
Definition isClassOrId (first : string) : bool :=
  match first with
  | String c _ => is_hash_dot c
  | EmptyString => false
  end.

(** [function h(selector, first, ...rest)], applied to its argument list
    after the selector: [first] is [undefined] when the list is empty.
    The constructors of [value] are the cases of [typeof first].  The
    selector is a string, as in every call of the source and of its tests;
    [h()] behaves as [h("")]. *)
Definition h (selector : string) (arguments : list value) : M value :=
  let first := hd VUndefined arguments in
  let rest := tl arguments in
  match first with
  | VStr f =>
      (* rest[0] && isVNode(rest[0]) *)
      let* v :=
        (if truthy (hd VUndefined rest) then isVNode (hd VUndefined rest)
         else ret false) in
      if v then
        if isClassOrId f then
          let* o := alloc (JObj []) in createVNode (selector +:+ f) o rest
        else
          let* o := alloc (JObj []) in createVNode selector o (first :: rest)
      else if isClassOrId f then
        createVNode (selector +:+ f) (hd VUndefined rest) (tl rest)
      else
        let* o := alloc (JObj []) in createVNode selector o (first :: rest)
  | VNull =>
      let* o := alloc (JObj []) in createVNode selector o rest
  | VRef l =>
      let* v := isVNode first in
      if v then
        let* o := alloc (JObj []) in createVNode selector o (first :: rest)
      else
        let* hp := get_heap in
        match elems_at hp l with
        | Some es =>
            let* o := alloc (JObj []) in createVNode selector o (es ++ rest)
        | None => createVNode selector first rest
        end
  | _ => createVNode selector first rest
  end.

(** The functions stored in [DOM]:
    [(first, ...rest) => h(tagName, first, ...rest)] and
    [(first, ...rest) => h("svg:" + tagName, first, ...rest)], each closed
    over its [tagName]. *)
Inductive factory : Type :=
  | HtmlFactory (tagName : string)
  | SvgFactory (tagName : string).

Definition call (f : factory) (arguments : list value) : M value :=
  match f with
  | HtmlFactory t => h t arguments
  | SvgFactory t => h ("svg:" +:+ t) arguments
  end.

(** [const DOM = {}], filled by the two [forEach] loops in source order:
    the HTML names first, then the SVG names. *)
Definition DOM : gmap string factory :=
  foldl (fun dom t => <[t := SvgFactory t]> dom)
    (foldl (fun dom t => <[t := HtmlFactory t]> dom) ∅ HTML_TAG_NAMES)
    SVG_TAG_NAMES.

(** [DOM.t(...arguments)] for the own properties of [DOM], the factories;
    calling a property that is not there raises.  The members [DOM] inherits
    from [Object.prototype] are not factories and are left out: nothing
    below calls [DOM_call] on a name that is not in one of the two lists. *)
Definition DOM_call (t : string) (arguments : list value) : M value :=
  match DOM !! t with
  | Some f => call f arguments
  | None => throw TypeError
  end.

(** ** renderer.js *)

(** The document factory the renderer borrows, with the two methods of the
    nodes it hands out.  A node is built up by the renderer alone, so
    [setAttribute] and [appendChild] are given as functions from the node
    before the call to the node after it. *)
Class Document (N : Type) : Type := {
  createElement : value -> N;
  createElementNS : value -> value -> N;
  createTextNode : value -> N;
  setAttribute : N -> string -> value -> N;
  appendChild : N -> N -> N
}.

(** A stub document: its nodes record how they were created, every
    [setAttribute] call and every [appendChild] call, in call order. *)
#[warnings="-register-all"]
Inductive node : Type :=
  | Text (data : value)
  | Element (namespaceURI : option value) (name : value)
      (attributes : list (string * value)) (childNodes : list node).

Global Instance stub_document : Document node := {
  createElement name := Element None name [] [];
  createElementNS ns name := Element (Some ns) name [] [];
  createTextNode data := Text data;
  setAttribute n k v :=
    match n with
    | Element ns name attrs cs => Element ns name (attrs ++ [(k, v)]) cs
    | Text _ => n
    end;
  appendChild n c :=
    match n with
    | Element ns name attrs cs => Element ns name attrs (cs ++ [c])
    | Text _ => n
    end
}.

Definition index_key (i : nat) : string :=
  NilZero.string_of_uint (Nat.to_uint i).

(** The pairs [(k, a[k])] for [k] in [Object.keys(a)]: for an array the
    indices come first.  [Object.keys] raises on [undefined] and [null].
    The named properties are listed in the order they were added, which is
    the order of [Object.keys] for keys that are not integer-like; the
    engine lists integer-like keys first, in ascending order. *)
Definition own_entries (a : value) : M (list (string * value)) :=
  match a with
  | VRef l =>
      fun hp =>
        match hp !! l with
        | Some (JArr es fs) => Ok (imap (fun i e => (index_key i, e)) es ++ fs, hp)
        | Some (JObj fs) => Ok (fs, hp)
        | None => Ok ([], hp)
        end
  | VStr s =>
      ret (imap (fun i c => (index_key i, VStr (String c "")))
             (list_ascii_of_string s))
  | VUndefined | VNull => throw TypeError
  | _ => ret []
  end.

(** A formatter maps a property value to the attribute value. *)
Definition formatter : Type := heap -> value -> value.

(** [function defaultStyleFormatter(value)]. *)
Definition defaultStyleFormatter : formatter :=
  fun hp value =>
    match value with
    | VRef _ =>
        match own_entries value hp with
        | Ok (es, _) =>
            VStr (join_strings ";"
                    (map (fun '(k, v) =>
                            k +:+ ":" +:+ to_string (length hp) hp v) es))
        | Throw _ => value
        end
    | _ => value
    end.

Record Renderer : Type := {
  formatters : gmap string formatter
}.

(** [setFormatterFor(name, formatter)]. *)
Definition setFormatterFor (name : string) (f : formatter) (r : Renderer)
  : Renderer :=
  {| formatters := <[name := f]> (formatters r) |}.

(** [constructor(document)]. *)
Definition new_Renderer : Renderer :=
  setFormatterFor "style" defaultStyleFormatter {| formatters := ∅ |}.

Section render.
Context {N : Type} `{Document N}.
Variable this : Renderer.

(** The callback of [Object.keys(a).forEach].  [this[_formatters]] is a
    plain object: [this[_formatters][k]] is the formatter registered for
    [k], and [undefined] for every other [k] that is not the name of a
    member of [Object.prototype] (see [Object_prototype_names]); on such a
    name the lookup finds the inherited member, which this callback leaves
    out. *)
Definition copy_attribute (n : N) (kv : string * value) : M N :=
  let '(k, v) := kv in
  if String.eqb k "xmlns" then ret n
  else
    let* hp := get_heap in
    let v := match formatters this !! k with
             | Some f => f hp v
             | None => v
             end in
    ret (setAttribute n k v).

(** [render(vtree)].  The recursion follows the [children] arrays through
    the store; a tree deeper than the fuel ends as the engine ends a
    recursion that is too deep. *)
Fixpoint render (fuel : nat) (vtree : value) {struct fuel} : M N :=
  match fuel with
  | O => throw InternalError
  | S fuel' =>
      match vtree with
      | VStr _ => ret (createTextNode vtree)
      | _ =>
          (* let { nodeName } = vtree *)
          let* nodeName := js_get vtree "nodeName" in
          (* if (vtree.attributes.xmlns) *)
          let* attrs := js_get vtree "attributes" in
          let* ns := js_get attrs "xmlns" in
          let* n :=
            (if truthy ns then
               let* props := js_get vtree "properties" in
               let* xmlns := js_get props "xmlns" in
               ret (createElementNS xmlns nodeName)
             else ret (createElement nodeName)) in
          (* let a = vtree.properties; Object.keys(a).forEach(...) *)
          let* a := js_get vtree "properties" in
          let* entries := own_entries a in
          let* n := foldM copy_attribute entries n in
          (* (vtree.children || []).forEach(c => ...) *)
          let* children := js_get vtree "children" in
          let* cs :=
            (if truthy children then
               match children with
               | VRef l =>
                   let* hp := get_heap in
                   match elems_at hp l with
                   | Some es => ret es
                   | None => throw TypeError
                   end
               | _ => throw TypeError
               end
             else ret []) in
          foldM (fun n c =>
                   let* d := render fuel' c in ret (appendChild n d))
            cs n
      end
  end.
End render.

(** ** Observing a VNode in the store *)

Definition prop (hp : heap) (v : value) (k : string) : option value :=
  match v with
  | VRef l => get_field k (fields_at hp l)
  | _ => None
  end.

(** [v.properties[k]]. *)
Definition vnode_property (hp : heap) (v : value) (k : string)
  : option value :=
  match prop hp v "properties" with
  | Some p => prop hp p k
  | None => None
  end.

(** [v.children], as the list of its elements. *)
Definition vnode_children (hp : heap) (v : value) : option (list value) :=
  match prop hp v "children" with
  | Some (VRef c) => elems_at hp c
  | _ => None
  end.

(** What [h] returns: a reference to a plain object with exactly the three
    fields [tagName] (a string), [properties] (an object) and [children]
    (an array). *)
Definition is_VNode (hp : heap) (v : value) : Prop :=
  exists n t p c cs,
    v = VRef n /\
    hp !! n = Some (JObj [("tagName", VStr t); ("properties", VRef p);
                          ("children", VRef c)]) /\
    is_Some (hp !! p) /\
    elems_at hp c = Some cs.

(** ** The loop over the selector tokens, without the store *)

(** Whether an iteration assigns [properties.xmlns]. *)
Definition sets_xmlns (part : string) : bool :=
  negb (first_is "#" part) && negb (first_is "." part)
  && (startsWith part "svg:" || String.eqb part "svg").

Definition next_locals (st : locals) (part : string) : locals :=
  if first_is "#" part then Locals (substr 1 part) (classes st) (tagName st)
  else if first_is "." part then
    Locals (id st) (classes st ++ [VStr (substr 1 part)]) (tagName st)
  else if startsWith part "svg:" then
    Locals (id st) (classes st) (substr 4 part)
  else Locals (id st) (classes st) part.

Definition locals_of (parts : list string) : locals :=
  fold_left next_locals parts (Locals "" [] "div").

(** The own properties of [properties] after each stage of [createVNode],
    from its own properties before. *)
Definition fields_after_parts (parts : list string) (fs : fields) : fields :=
  if existsb sets_xmlns parts then set_field "xmlns" (VStr SVG_NS) fs else fs.

Definition fields_after_id (st : locals) (fs : fields) : fields :=
  if truthy (VStr (id st)) && negb (has_field "id" fs)
  then set_field "id" (VStr (id st)) fs else fs.

Definition pushed_classes (st : locals) (fs : fields) : list value :=
  classes st ++
  (if has_field "className" fs
   then [default VUndefined (get_field "className" fs)] else []).

Definition fields_after_class (hp : heap) (cls : list value) (fs : fields)
  : fields :=
  if (0 <? length cls)%nat then
    set_field "className" (VStr (array_join " " hp cls))
      (if has_field "class" fs
       then delete_field "class"
              (set_field "className"
                 (default VUndefined (get_field "class" fs)) fs)
       else fs)
  else fs.

Definition fields_before_class (parts : list string) (fs : fields) : fields :=
  fields_after_id (locals_of parts) (fields_after_parts parts fs).

Definition final_fields (parts : list string) (hp : heap) (fs : fields)
  : fields :=
  let fs2 := fields_before_class parts fs in
  fields_after_class hp (pushed_classes (locals_of parts) fs2) fs2.

Definition final_tagName (parts : list string) (fs : fields) : string :=
  let st := locals_of parts in
  if truthy (default VUndefined
               (get_field "xmlns" (fields_before_class parts fs)))
  then tagName st else toUpperCase (tagName st).

Definition children_of (hp : heap) (args : list value) : list value :=
  List.filter not_nullish (concat_spread hp args).

(** ** The store while [createVNode] runs

    While [createVNode] runs on a [properties] object at [l], the store is
    the initial store with new own properties at [l]. *)

Definition put (l : loc) (fs : fields) (hp : heap) : heap :=
  alter (map_fields (fun _ => fs)) l hp.

Definition raises {A} (m : M A) (hp : heap) : Prop :=
  exists e, m hp = Throw e.

(** The store [createVNode] leaves: the [properties] object at [l] with
    its final own properties, then the new [children] array and the new
    VNode object. *)
Definition vnode_store (parts : list string) (l : loc) (fs : fields)
    (hp : heap) (args : list value) : heap :=
  put l (final_fields parts hp fs) hp
  ++ [JArr (children_of hp args) [];
      JObj [("tagName", VStr (final_tagName parts fs));
            ("properties", VRef l);
            ("children", VRef (length hp))]].

(** ** [h] and its table of overloads *)

Definition is_VNode_like (hp : heap) (v : value) : bool :=
  match v with
  | VRef l =>
      has_field "tagName" (fields_at hp l)
      && has_field "properties" (fields_at hp l)
  | _ => false
  end.

Definition is_ref (v : value) : bool :=
  match v with VRef _ => true | _ => false end.

(** The [properties] argument: a new empty object [{}], or a value handed
    on as it is. *)
Inductive properties_argument : Type :=
  | NewObject
  | Given (p : value).

Record overload : Type := Overload {
  o_selector : string;
  o_properties : properties_argument;
  o_children : list value
}.

Definition resolve (hp : heap) (selector : string) (arguments : list value)
  : overload :=
  let first := hd VUndefined arguments in
  let rest := tl arguments in
  match first with
  | VStr f =>
      if isClassOrId f then
        if is_VNode_like hp (hd VUndefined rest)
        then Overload (selector +:+ f) NewObject rest
        else Overload (selector +:+ f) (Given (hd VUndefined rest)) (tl rest)
      else Overload selector NewObject (first :: rest)
  | VNull => Overload selector NewObject rest
  | VRef l =>
      if is_VNode_like hp first
      then Overload selector NewObject (first :: rest)
      else
        match elems_at hp l with
        | Some es => Overload selector NewObject (es ++ rest)
        | None => Overload selector (Given first) rest
        end
  | _ => Overload selector (Given first) rest
  end.

(** [rest[0] && isVNode(rest[0])] applies [in] to [rest[0]] whenever it is
    truthy; that raises unless [rest[0]] is an object. *)
Definition guard_raises (arguments : list value) : bool :=
  match hd VUndefined arguments with
  | VStr _ =>
      let r0 := hd VUndefined (tl arguments) in
      truthy r0 && negb (is_ref r0)
  | _ => false
  end.

Definition apply_overload (ov : overload) : M value :=
  match o_properties ov with
  | NewObject =>
      let* o := alloc (JObj []) in
      createVNode (o_selector ov) o (o_children ov)
  | Given p => createVNode (o_selector ov) p (o_children ov)
  end.

(** Where the [properties] object of the resulting VNode lives: the store
    at the time [createVNode] starts on it, and its location.  A truthy
    value that is not an object has no place. *)
Definition properties_place (hp : heap) (pa : properties_argument)
  : option (heap * loc) :=
  match pa with
  | NewObject => Some (hp ++ [JObj []], length hp)
  | Given p =>
      if truthy p then
        match p with
        | VRef l => Some (hp, l)
        | _ => None
        end
      else Some (hp ++ [JObj []], length hp)
  end.

Definition allocated (hp : heap) (v : value) : Prop :=
  match v with
  | VRef l => l < length hp
  | _ => True
  end.

(** The selector of the call: a first argument that starts with [.] or [#]
    is appended to it. *)
Definition effective_selector (selector : string) (arguments : list value)
  : string :=
  match hd VUndefined arguments with
  | VStr f => if isClassOrId f then selector +:+ f else selector
  | _ => selector
  end.

(** The arguments that become children, by the shape of the call. *)
Definition children_arguments (hp : heap) (arguments : list value)
  : list value :=
  let first := hd VUndefined arguments in
  let rest := tl arguments in
  match first with
  | VStr f =>
      if isClassOrId f then
        if is_VNode_like hp (hd VUndefined rest) then rest else tl rest
      else first :: rest
  | VNull => rest
  | VRef l =>
      if is_VNode_like hp first then first :: rest
      else
        match elems_at hp l with
        | Some es => es ++ rest
        | None => rest
        end
  | _ => rest
  end.

Definition falsy_or_object (v : value) : bool :=
  negb (truthy v) || is_ref v.

(** The argument lists [h] handles: a first argument that is [undefined],
    [null], [false], [0] or an object (a properties map, a VNode or an
    array); or a string followed by nothing, by a falsy value or by an
    object. *)
Definition supported (arguments : list value) : bool :=
  match hd VUndefined arguments with
  | VStr _ => falsy_or_object (hd VUndefined (tl arguments))
  | first => falsy_or_object first
  end.

(** ** What a selector names *)

(** The classes a selector names, in selector order. *)
Definition class_names (parts : list string) : list string :=
  map (substr 1) (List.filter (first_is ".") parts).

Definition selector_classes (selector : string) : list string :=
  class_names (match_all selector).

(** The tag name a selector names: its last token that is neither an id
    nor a class, without an [svg:] prefix; [div] when there is none. *)
Definition is_fragment (part : string) : bool :=
  first_is "#" part || first_is "." part.

Definition tag_of (part : string) : string :=
  if startsWith part "svg:" then substr 4 part else part.

Definition selector_tagName (parts : list string) : string :=
  List.last (map tag_of (List.filter (fun p => negb (is_fragment p)) parts))
    "div".

(** The properties a selector alone supplies. *)
Definition selector_properties (parts : list string) : fields :=
  (if existsb sets_xmlns parts then [("xmlns", VStr SVG_NS)] else [])
  ++ (if String.eqb (id (locals_of parts)) "" then []
      else [("id", VStr (id (locals_of parts)))])
  ++ (match class_names parts with
      | [] => []
      | cs => [("className", VStr (join_strings " " cs))]
      end).

(** The [className] a properties map supplies, if any. *)
Definition explicit_className (fs : fields) : list value :=
  match get_field "className" fs with
  | Some c => [c]
  | None => []
  end.

(** A properties map whose [className], if it has one, is a string. *)
Definition className_is_text (fs : fields) : Prop :=
  match get_field "className" fs with
  | None | Some (VStr _) => True
  | Some _ => False
  end.

(** The class name such a map supplies. *)
Definition explicit_class_names (fs : fields) : list string :=
  match get_field "className" fs with
  | Some (VStr c) => [c]
  | _ => []
  end.

(** ** Structural comparison and the tests of the source *)

(** What [deepEqual] compares: a value read out of the store with
    everything it refers to.  [None] when the structure is deeper than the
    fuel. *)
#[warnings="-register-all"]
Inductive tree : Type :=
  | TUndefined
  | TNull
  | TBool (b : bool)
  | TNum (n : Z)
  | TStr (s : string)
  | TObj (fs : list (string * tree))
  | TArr (elems : list tree) (fs : list (string * tree)).

Fixpoint reify (fuel : nat) (hp : heap) (v : value) {struct fuel}
  : option tree :=
  match v with
  | VUndefined => Some TUndefined
  | VNull => Some TNull
  | VBool b => Some (TBool b)
  | VNum n => Some (TNum n)
  | VStr s => Some (TStr s)
  | VRef l =>
      match fuel with
      | O => None
      | S fuel' =>
          let field kv :=
            match reify fuel' hp (snd kv) with
            | Some t => Some (fst kv, t)
            | None => None
            end in
          match hp !! l with
          | Some (JObj fs) =>
              match mapM field fs with
              | Some ts => Some (TObj ts)
              | None => None
              end
          | Some (JArr es fs) =>
              match mapM (reify fuel' hp) es, mapM field fs with
              | Some ts, Some fts => Some (TArr ts fts)
              | _, _ => None
              end
          | None => None
          end
      end
  end.

(** The test of the source: [h("div", "#foo.bar", {className: "baz"},
    h("span", h("b", "hello")))] and [div("#foo.bar", {className: "baz"},
    span(b("hello")))] are deep-equal. *)
Definition factories_test : M (value * value) :=
  let* p := alloc (JObj [("className", VStr "baz")]) in
  let* b := h "b" [VStr "hello"] in
  let* span := h "span" [b] in
  let* node := h "div" [VStr "#foo.bar"; p; span] in
  let* p2 := alloc (JObj [("className", VStr "baz")]) in
  let* b2 := DOM_call "b" [VStr "hello"] in
  let* span2 := DOM_call "span" [b2] in
  let* node2 := DOM_call "div" [VStr "#foo.bar"; p2; span2] in
  ret (node, node2).

(** [h("div", {className: "x"}, "text")], then [render] of the result. *)
Definition render_test (fuel : nat) : M node :=
  let* p := alloc (JObj [("className", VStr "x")]) in
  let* v := h "div" [p; VStr "text"] in
  render new_Renderer fuel v.
(** ** Further vocabulary for selectors and calls *)

(** Every character of [s] satisfies [p]. *)
Fixpoint all_chars (p : ascii -> bool) (s : string) : bool :=
  match s with
  | EmptyString => true
  | String c r => p c && all_chars p r
  end.

(** What the scan yields, token by token: a non-empty run of word
    characters, or a [#] or [.] followed by a non-empty run of characters
    that are neither. *)
Definition word_token (t : string) : Prop :=
  t <> "" /\ all_chars is_word t = true.

Definition fragment_token (t : string) : Prop :=
  is_fragment t = true /\ substr 1 t <> ""
  /\ all_chars not_hash_dot (substr 1 t) = true.

(** The id a selector names: that of its last [#id] token, the empty
    string when there is none. *)
Definition selector_id (parts : list string) : string :=
  List.last (map (substr 1) (List.filter (first_is "#") parts)) "".

(** The object of the store that a call hands to [createVNode] as
    [properties], if there is one. *)
Definition properties_target (hp : heap) (arguments : list value)
  : option loc :=
  match o_properties (resolve hp "" arguments) with
  | Given (VRef l) => Some l
  | _ => None
  end.

(** The calls whose arguments after the selector start with nothing,
    [undefined], [null] or an object (a properties map, a VNode or an array
    of children), or with a string (a text child or a [.]/[#] fragment)
    that is followed by nothing, [undefined], [null] or an object. *)
Definition object_or_nothing (v : value) : bool :=
  match v with
  | VUndefined | VNull | VRef _ => true
  | _ => false
  end.

Definition call_shape (arguments : list value) : bool :=
  match hd VUndefined arguments with
  | VStr _ => object_or_nothing (hd VUndefined (tl arguments))
  | first => object_or_nothing first
  end.

(** The object a call uses as [properties], if the call names one, has a
    [className] that is a string, or none. *)
Definition properties_className_is_text (hp : heap) (arguments : list value)
  : Prop :=
  match properties_target hp arguments with
  | Some l => className_is_text (fields_at hp l)
  | None => True
  end.

(** ** base-highlighter.js

    The caller of the two modules: the constructor of [BaseHighlighter]
    derives a class name from the type name of the highlighter and renders
    its container with it. *)

Definition lower_char (c : ascii) : ascii :=
  if is_upper c then ascii_of_nat (nat_of_ascii c + 32) else c.

(** [text.replace(/[A-Z]+/g, (a) => "-" + a.toLowerCase())]: every longest
    run of upper-case letters is put in lower case behind a dash.
    [in_run] tells that the character before was part of such a run. *)
Fixpoint dash_lower_runs (in_run : bool) (text : string) : string :=
  match text with
  | EmptyString => ""
  | String c r =>
      if is_upper c then
        if in_run then String (lower_char c) (dash_lower_runs true r)
        else String "-" (String (lower_char c) (dash_lower_runs true r))
      else String c (dash_lower_runs false r)
  end.

(** [const toKebabCase = text =>
      text.replace(/[A-Z]+/g, (a) => "-" + a.toLowerCase()).substr(1);] *)
Definition toKebabCase (text : string) : string :=
  substr 1 (dash_lower_runs false text).

(** [s.replace(pattern, "")] for a pattern without special characters: the
    first occurrence of [pattern] is taken out. *)
Fixpoint remove_first (pattern s : string) : string :=
  match s with
  | EmptyString => ""
  | String c r =>
      if startsWith s pattern then substr (String.length pattern) s
      else String c (remove_first pattern r)
  end.

(** The constructor of [BaseHighlighter] up to [container], from the
    [typeName] it reads off its own constructor:
    [let className = toKebabCase(typeName).replace(/-highlighter/, "");
     let renderer = new Renderer(env.document);
     let container = renderer.render(
       DOM.div(".highlighter-container." + className));] *)
Definition highlighter_className (typeName : string) : string :=
  remove_first "-highlighter" (toKebabCase typeName).

Definition BaseHighlighter_container (fuel : nat) (typeName : string)
  : M node :=
  let className := highlighter_className typeName in
  let renderer := new_Renderer in
  let* vnode :=
    DOM_call "div" [VStr (".highlighter-container." +:+ className)] in
  render renderer fuel vnode.

(** ** Further vocabulary for the renderer and its caller *)

(** The attributes the loop over [Object.keys(a)] sets, from the pairs of
    [a]: every pair but [xmlns], its value passed through the formatter
    registered for its key, if there is one. *)
Definition formatted_attributes (this : Renderer) (hp : heap)
    (entries : list (string * value)) : list (string * value) :=
  map (fun kv =>
         (fst kv,
          match formatters this !! fst kv with
          | Some f => f hp (snd kv)
          | None => snd kv
          end))
    (List.filter (fun kv => negb (String.eqb (fst kv) "xmlns")) entries).

(** The names of the members of [Object.prototype], those of the standard
    and those the engine of the source adds: a key with one of these names
    is found in every plain object. *)
Definition Object_prototype_names : list string := [
  "constructor"; "toString"; "toLocaleString"; "valueOf"; "hasOwnProperty";
  "isPrototypeOf"; "propertyIsEnumerable"; "__defineGetter__";
  "__defineSetter__"; "__lookupGetter__"; "__lookupSetter__"; "__proto__";
  "toSource"; "watch"; "unwatch"
].

(** A key that is a run of digits; the integer-like keys, which
    [Object.keys] lists before the others, are among these. *)
Definition digits_only (k : string) : bool :=
  negb (String.eqb k "") && all_chars is_digit k.

Definition plain_key (k : string) : bool :=
  negb (digits_only k) && negb (bool_decide (k ∈ Object_prototype_names)).

(** A property with a plain key and, if a formatter is registered for that
    key, with a string as its value. *)
Definition plain_property (this : Renderer) (kv : string * value) : bool :=
  plain_key (fst kv)
  && match formatters this !! fst kv, snd kv with
     | Some _, VStr _ => true
     | Some _, _ => false
     | None, _ => true
     end.

Definition not_upper (c : ascii) : bool := negb (is_upper c).

(** A word of a camel-case name, in lower case: a lower-case letter
    followed by at least one character, none of them an upper-case
    letter. *)
Definition lower_word (w : string) : Prop :=
  match w with
  | String c r => is_lower c = true /\ r <> "" /\ all_chars not_upper r = true
  | EmptyString => False
  end.

Definition capitalize (w : string) : string :=
  match w with
  | String c r => String (upper_char c) r
  | EmptyString => ""
  end.

Fixpoint concat_strings (l : list string) : string :=
  match l with
  | [] => ""
  | x :: r => x +:+ concat_strings r
  end.

(** A computation that leaves the store as it finds it. *)
Definition reads_only {A} (m : M A) : Prop :=
  forall hp a hp', m hp = Ok (a, hp') -> hp' = hp.

(** ** Stores of the worked examples *)

(** [{className: "bar"}] and [{className: "baz"}], each alone in a store. *)
Definition bar_store : heap := [JObj [("className", VStr "bar")]].
Definition baz_store : heap := [JObj [("className", VStr "baz")]].

(** [{xmlns: "http://www.w3.org/XML/1998/namespace"}]. *)
Definition xml_store : heap :=
  [JObj [("xmlns", VStr "http://www.w3.org/XML/1998/namespace")]].

(** The array [[0, null, "", a]], [a] being the array itself. *)
Definition array_store : heap := [JArr [VNum 0; VNull; VStr ""; VRef 0] []].

(** The store after [h("span")], whose result is at location 2. *)
Definition span_store : heap :=
  [JObj []; JArr [] [];
   JObj [("tagName", VStr "SPAN"); ("properties", VRef 0);
         ("children", VRef 1)]].

(** A tree as [render] reads it, at location 4: [nodeName], [attributes]
    (location 3), [properties] (location 1, with a [style] object at
    location 0) and [children] (location 2). *)
Definition circle_store : heap :=
  [JObj [("color", VStr "red"); ("width", VStr "1px")];
   JObj [("xmlns", VStr SVG_NS); ("style", VRef 0); ("id", VStr "c")];
   JArr (map VStr ["a"; "b"]) [];
   JObj [("xmlns", VStr SVG_NS)];
   JObj [("nodeName", VStr "circle"); ("attributes", VRef 3);
         ("properties", VRef 1); ("children", VRef 2)]].

(** A tree as [render] reads it, at location 3: a [rect] in the SVG
    namespace whose properties (location 0) are [xmlns], a [style] given as
    a string, an [id] and a [width] given as a number; one text child. *)
Definition rect_store : heap :=
  [JObj [("xmlns", VStr SVG_NS); ("style", VStr "fill:red");
         ("id", VStr "r"); ("width", VNum 5)];
   JArr [VStr "a"] [];
   JObj [("xmlns", VStr SVG_NS)];
   JObj [("nodeName", VStr "rect"); ("attributes", VRef 2);
         ("properties", VRef 0); ("children", VRef 1)]].

(** ** Basic facts *)

Lemma bind_Ok {A B} (m : M A) (k : A -> M B) hp a hp' :
  m hp = Ok (a, hp') -> bind m k hp = k a hp'.
Proof. intros E. unfold bind. now rewrite E. Qed.

Lemma bind_Throw {A B} (m : M A) (k : A -> M B) hp e :
  m hp = Throw e -> bind m k hp = Throw e.
Proof. intros E. unfold bind. now rewrite E. Qed.

Lemma set_field_idem k v fs :
  set_field k v (set_field k v fs) = set_field k v fs.
Proof.
  induction fs as [|[k' v'] fs IH]; simpl.
  - now rewrite String.eqb_refl.
  - destruct (String.eqb k k') eqn:E; simpl.
    + now rewrite String.eqb_refl.
    + now rewrite E, IH.
Qed.

Lemma get_set_field_eq k v fs : get_field k (set_field k v fs) = Some v.
Proof.
  induction fs as [|[k' v'] fs IH]; simpl.
  - now rewrite String.eqb_refl.
  - destruct (String.eqb k k') eqn:E; simpl.
    + now rewrite String.eqb_refl.
    + now rewrite E.
Qed.

Lemma get_set_field_ne k k' v fs :
  k <> k' -> get_field k (set_field k' v fs) = get_field k fs.
Proof.
  intros Hne. apply String.eqb_neq in Hne.
  induction fs as [|[k2 v2] fs IH]; simpl.
  - now rewrite Hne.
  - destruct (String.eqb k' k2) eqn:E; simpl.
    + apply String.eqb_eq in E; subst k2. now rewrite Hne.
    + now rewrite IH.
Qed.

Lemma get_delete_field_eq k fs : get_field k (delete_field k fs) = None.
Proof.
  induction fs as [|[k' v'] fs IH]; simpl; [done|].
  destruct (String.eqb k k') eqn:E; simpl; [done|]. now rewrite E.
Qed.

Lemma get_delete_field_ne k k' fs :
  k <> k' -> get_field k (delete_field k' fs) = get_field k fs.
Proof.
  intros Hne. apply String.eqb_neq in Hne.
  induction fs as [|[k2 v2] fs IH]; simpl; [done|].
  destruct (String.eqb k' k2) eqn:E; simpl.
  - apply String.eqb_eq in E; subst k2. now rewrite Hne.
  - now rewrite IH.
Qed.

Lemma has_set_field_ne k k' v fs :
  k <> k' -> has_field k (set_field k' v fs) = has_field k fs.
Proof. intros. unfold has_field. now rewrite get_set_field_ne. Qed.

Lemma has_delete_field_ne k k' fs :
  k <> k' -> has_field k (delete_field k' fs) = has_field k fs.
Proof. intros. unfold has_field. now rewrite get_delete_field_ne. Qed.

(** ** One object of the store under update *)

Lemma length_put l fs hp : length (put l fs hp) = length hp.
Proof. apply length_alter. Qed.

Lemma put_put l fs fs' hp : put l fs' (put l fs hp) = put l fs' hp.
Proof.
  unfold put. rewrite list_alter_alter_eq. apply list_alter_ext; [|done].
  intros [?|??] _; reflexivity.
Qed.

Lemma put_same l o hp : hp !! l = Some o -> put l (obj_fields o) hp = hp.
Proof.
  intros Hl. unfold put.
  apply list_eq. intros j. destruct (decide (l = j)) as [<-|Hne].
  - rewrite list_lookup_alter_eq, Hl. now destruct o.
  - now rewrite list_lookup_alter_ne.
Qed.

Lemma put_lookup_ne l l' fs hp : l <> l' -> put l fs hp !! l' = hp !! l'.
Proof. intros. unfold put. now rewrite list_lookup_alter_ne. Qed.

Lemma put_lookup l o fs hp :
  hp !! l = Some o -> put l fs hp !! l = Some (map_fields (fun _ => fs) o).
Proof. intros Hl. unfold put. now rewrite list_lookup_alter_eq, Hl. Qed.

Lemma fields_at_put l o fs hp :
  hp !! l = Some o -> fields_at (put l fs hp) l = fs.
Proof.
  intros Hl. unfold fields_at. rewrite (put_lookup _ _ _ _ Hl). now destruct o.
Qed.

Lemma alter_put l o f fs hp :
  hp !! l = Some o ->
  alter (map_fields f) l (put l fs hp) = put l (f fs) hp.
Proof.
  intros Hl. unfold put. rewrite list_alter_alter_eq.
  apply list_alter_ext; [|done]. intros [?|??] _; reflexivity.
Qed.

Lemma elems_at_put l fs hp l' : elems_at (put l fs hp) l' = elems_at hp l'.
Proof.
  unfold elems_at. destruct (decide (l = l')) as [<-|Hne].
  - unfold put. rewrite list_lookup_alter_eq.
    destruct (hp !! l) as [[?|??]|]; reflexivity.
  - now rewrite put_lookup_ne.
Qed.

Lemma elems_at_app_l hp hp' l :
  l < length hp -> elems_at (hp ++ hp') l = elems_at hp l.
Proof. intros Hl. unfold elems_at. now rewrite lookup_app_l. Qed.

Lemma concat_spread_ext hp hp' args :
  (forall l, elems_at hp l = elems_at hp' l) ->
  concat_spread hp args = concat_spread hp' args.
Proof.
  intros E. unfold concat_spread. induction args as [|a args IH]; [done|].
  simpl. rewrite IH. destruct a; try reflexivity. now rewrite E.
Qed.

Lemma to_string_ext hp hp' fuel v :
  (forall l, elems_at hp l = elems_at hp' l) ->
  to_string fuel hp v = to_string fuel hp' v.
Proof.
  intros E. revert v. induction fuel as [|fuel IH]; intros v.
  - destruct v; reflexivity.
  - destruct v; try reflexivity. simpl. rewrite E.
    destruct (elems_at hp' l) as [es|]; [|reflexivity].
    f_equal. apply map_ext. intros e. now rewrite IH.
Qed.

Lemma array_join_put sep l fs hp cls :
  array_join sep (put l fs hp) cls = array_join sep hp cls.
Proof.
  unfold array_join. rewrite length_put. f_equal. apply map_ext. intros e.
  destruct (not_nullish e); [|reflexivity].
  apply to_string_ext. intros l'. apply elems_at_put.
Qed.

Section on_properties.
Variables (l : loc) (o : object) (hp : heap).
Hypothesis Hl : hp !! l = Some o.

Lemma js_in_put k fs :
  js_in k (VRef l) (put l fs hp) = Ok (has_field k fs, put l fs hp).
Proof. simpl. now rewrite (fields_at_put _ _ _ _ Hl). Qed.

Lemma js_get_put k fs :
  js_get (VRef l) k (put l fs hp)
  = Ok (default VUndefined (get_field k fs), put l fs hp).
Proof. simpl. now rewrite (fields_at_put _ _ _ _ Hl). Qed.

Lemma js_set_put k x fs :
  js_set (VRef l) k x (put l fs hp) = Ok (tt, put l (set_field k x fs) hp).
Proof. simpl. now rewrite (alter_put _ _ _ _ _ Hl). Qed.

Lemma js_delete_put k fs :
  js_delete (VRef l) k (put l fs hp)
  = Ok (tt, put l (delete_field k fs) hp).
Proof. simpl. now rewrite (alter_put _ _ _ _ _ Hl). Qed.

Lemma part_step_put st part fs :
  part_step (VRef l) st part (put l fs hp)
  = Ok (next_locals st part,
        put l (if sets_xmlns part then set_field "xmlns" (VStr SVG_NS) fs
               else fs) hp).
Proof.
  unfold part_step, next_locals, sets_xmlns.
  destruct (first_is "#" part); [reflexivity|].
  destruct (first_is "." part); [reflexivity|].
  destruct (startsWith part "svg:"); simpl negb; simpl andb.
  - erewrite bind_Ok by apply js_set_put. reflexivity.
  - destruct (String.eqb part "svg"); simpl.
    + erewrite bind_Ok by apply js_set_put. reflexivity.
    + reflexivity.
Qed.

Lemma foldM_part_step parts st fs :
  foldM (part_step (VRef l)) parts st (put l fs hp)
  = Ok (fold_left next_locals parts st,
        put l (fields_after_parts parts fs) hp).
Proof.
  revert st fs. induction parts as [|part parts IH]; intros st fs.
  - reflexivity.
  - simpl foldM. erewrite bind_Ok by apply part_step_put.
    rewrite IH. simpl fold_left. unfold fields_after_parts. simpl existsb.
    destruct (sets_xmlns part); simpl; [|reflexivity].
    destruct (existsb sets_xmlns parts); [|reflexivity].
    now rewrite set_field_idem.
Qed.

(** [createVNode] on a [properties] object that is in the store. *)
Lemma createVNode_put selector parts args fs :
  matchSelector selector = Some parts ->
  createVNode selector (VRef l) args (put l fs hp)
  = Ok (VRef (S (length hp)),
        put l (final_fields parts hp fs) hp
        ++ [JArr (children_of hp args) [];
            JObj [("tagName", VStr (final_tagName parts fs));
                  ("properties", VRef l);
                  ("children", VRef (length hp))]]).
Proof.
  intros Hparts. unfold createVNode. rewrite Hparts. simpl truthy.
  cbv iota. rewrite (bind_Ok (ret (VRef l)) _ _ (VRef l) (put l fs hp) eq_refl).
  rewrite (bind_Ok (ret parts) _ _ parts (put l fs hp) eq_refl).
  erewrite bind_Ok by apply foldM_part_step.
  fold (locals_of parts).
  set (st := locals_of parts).
  set (fs1 := fields_after_parts parts fs).
  assert (Hid :
    (if truthy (VStr (id st)) then
       let* b := js_in "id" (VRef l) in
       when (negb b) (js_set (VRef l) "id" (VStr (id st)))
     else ret tt) (put l fs1 hp)
    = Ok (tt, put l (fields_after_id st fs1) hp)).
  { unfold fields_after_id. destruct (truthy (VStr (id st))); [|reflexivity].
    erewrite bind_Ok by apply js_in_put. simpl andb.
    destruct (has_field "id" fs1); simpl; [reflexivity|].
    now rewrite (alter_put _ _ _ _ _ Hl). }
  erewrite bind_Ok by exact Hid. clear Hid.
  fold (fields_before_class parts fs).
  set (fs2 := fields_before_class parts fs).
  erewrite bind_Ok by apply js_get_put.
  erewrite bind_Ok by apply js_in_put.
  assert (Hcls :
    (if has_field "className" fs2 then
       let* c := js_get (VRef l) "className" in ret (classes st ++ [c])
     else ret (classes st)) (put l fs2 hp)
    = Ok (pushed_classes st fs2, put l fs2 hp)).
  { unfold pushed_classes. destruct (has_field "className" fs2).
    - erewrite bind_Ok by apply js_get_put. reflexivity.
    - now rewrite app_nil_r. }
  erewrite bind_Ok by exact Hcls. clear Hcls.
  set (cls := pushed_classes st fs2).
  assert (Hclass :
    (if (0 <? length cls)%nat then
       let* hasClass := js_in "class" (VRef l) in
       (if hasClass then
          let* c := js_get (VRef l) "class" in
          js_set (VRef l) "className" c ;;
          js_delete (VRef l) "class"
        else ret tt) ;;
       let* hp0 := get_heap in
       js_set (VRef l) "className" (VStr (array_join " " hp0 cls))
     else ret tt) (put l fs2 hp)
    = Ok (tt, put l (fields_after_class hp cls fs2) hp)).
  { unfold fields_after_class. destruct (0 <? length cls)%nat; [|reflexivity].
    erewrite bind_Ok by apply js_in_put.
    destruct (has_field "class" fs2).
    - erewrite (bind_Ok (let* c := js_get _ _ in _)).
      2:{ erewrite bind_Ok by apply js_get_put.
          erewrite bind_Ok by apply js_set_put.
          apply js_delete_put. }
      erewrite bind_Ok by reflexivity.
      rewrite array_join_put. apply js_set_put.
    - erewrite bind_Ok by reflexivity.
      erewrite bind_Ok by reflexivity.
      rewrite array_join_put. apply js_set_put. }
  erewrite bind_Ok by exact Hclass. clear Hclass.
  fold (final_fields parts hp fs).
  erewrite bind_Ok by reflexivity.
  unfold alloc, bind. rewrite !length_app, !length_put. simpl length.
  rewrite <- app_assoc. simpl app.
  rewrite (concat_spread_ext _ hp) by (intros; apply elems_at_put).
  repeat f_equal; lia.
Qed.

Lemma createVNode_at selector parts args :
  matchSelector selector = Some parts ->
  createVNode selector (VRef l) args hp
  = Ok (VRef (S (length hp)),
        put l (final_fields parts hp (obj_fields o)) hp
        ++ [JArr (children_of hp args) [];
            JObj [("tagName", VStr (final_tagName parts (obj_fields o)));
                  ("properties", VRef l);
                  ("children", VRef (length hp))]]).
Proof.
  intros Hparts. rewrite <- (put_same l o hp Hl) at 1.
  now apply createVNode_put.
Qed.
End on_properties.

(** ** What [createVNode] returns *)

Lemma raises_bind_l {A B} (m : M A) (k : A -> M B) hp :
  raises m hp -> raises (bind m k) hp.
Proof. intros [e E]. exists e. now apply bind_Throw. Qed.

Lemma raises_bind_r {A B} (m : M A) (k : A -> M B) hp :
  (forall a hp', raises (k a) hp') -> raises (bind m k) hp.
Proof.
  intros Hk. unfold raises, bind. destruct (m hp) as [[a hp']|e]; [|eauto].
  apply Hk.
Qed.

Lemma raises_not_Ok {A} (m : M A) hp a hp' :
  raises m hp -> m hp <> Ok (a, hp').
Proof. intros [e E]. now rewrite E. Qed.

Lemma createVNode_object selector parts l o args hp :
  matchSelector selector = Some parts ->
  hp !! l = Some o ->
  createVNode selector (VRef l) args hp
  = Ok (VRef (S (length hp)), vnode_store parts l (obj_fields o) hp args).
Proof. intros Hparts Hl. now apply createVNode_at. Qed.

(** A falsy [properties] argument is replaced by a new empty object. *)
Lemma createVNode_falsy selector p args hp :
  truthy p = false ->
  createVNode selector p args hp
  = createVNode selector (VRef (length hp)) args (hp ++ [JObj []]).
Proof. intros Hp. unfold createVNode. rewrite Hp. reflexivity. Qed.

Lemma createVNode_new selector parts p args hp :
  matchSelector selector = Some parts ->
  truthy p = false ->
  createVNode selector p args hp
  = Ok (VRef (S (S (length hp))),
        vnode_store parts (length hp) [] (hp ++ [JObj []]) args).
Proof.
  intros Hparts Hp. rewrite createVNode_falsy by done.
  rewrite (createVNode_object _ parts _ (JObj [])); [|done|].
  - rewrite length_app. simpl. repeat f_equal; lia.
  - now rewrite list_lookup_middle.
Qed.

(** A selector without any token makes the loop iterate over [null]. *)
Lemma createVNode_no_token selector p args hp :
  matchSelector selector = None ->
  createVNode selector p args hp = Throw TypeError.
Proof.
  intros Hparts. unfold createVNode. rewrite Hparts.
  unfold bind. destruct (truthy p); reflexivity.
Qed.

(** A truthy [properties] argument that is not an object reaches
    ["className" in properties], which raises. *)
Lemma createVNode_primitive selector p args hp :
  truthy p = true ->
  (forall l, p <> VRef l) ->
  raises (createVNode selector p args) hp.
Proof.
  intros Hp Hprim. unfold createVNode. rewrite Hp.
  assert (Hin : forall k hp0, raises (js_in k p) hp0).
  { intros k hp0. destruct p; try (eexists; reflexivity).
    now destruct (Hprim l). }
  unfold raises. rewrite (bind_Ok (ret p) _ hp p hp eq_refl).
  apply raises_bind_r; intros parts hp1.
  apply raises_bind_r; intros st hp2.
  apply raises_bind_r; intros [] hp3.
  apply raises_bind_r; intros xmlns hp4.
  apply raises_bind_l, Hin.
Qed.

(** ** Looking into the store [createVNode] leaves *)

Section vnode_store.
Variables (parts : list string) (l : loc) (o : object) (hp : heap)
          (fs : fields) (args : list value).
Hypothesis Hl : hp !! l = Some o.

Let hp' := vnode_store parts l fs hp args.
Let v := VRef (S (length hp)).

Lemma vnode_store_length : length hp' = S (S (length hp)).
Proof.
  subst hp'. unfold vnode_store. rewrite length_app, length_put. simpl. lia.
Qed.

Lemma vnode_store_old j :
  j < length hp -> j <> l -> hp' !! j = hp !! j.
Proof.
  intros Hj Hne. subst hp'. unfold vnode_store.
  rewrite lookup_app_l by now rewrite length_put.
  now apply put_lookup_ne.
Qed.

Lemma vnode_store_properties :
  hp' !! l = Some (map_fields (fun _ => final_fields parts hp fs) o).
Proof.
  subst hp'. unfold vnode_store.
  rewrite lookup_app_l
    by (rewrite length_put; now apply lookup_lt_Some with o).
  now apply put_lookup.
Qed.

Lemma vnode_store_children :
  hp' !! length hp = Some (JArr (children_of hp args) []).
Proof.
  subst hp'. unfold vnode_store.
  rewrite lookup_app_r by now rewrite length_put.
  rewrite length_put, Nat.sub_diag. reflexivity.
Qed.

Lemma vnode_store_vnode :
  hp' !! S (length hp)
  = Some (JObj [("tagName", VStr (final_tagName parts fs));
                ("properties", VRef l);
                ("children", VRef (length hp))]).
Proof.
  subst hp'. unfold vnode_store.
  rewrite lookup_app_r by (rewrite length_put; lia).
  rewrite length_put.
  replace (S (length hp) - length hp) with 1 by lia. reflexivity.
Qed.

Lemma vnode_store_is_VNode : is_VNode hp' v.
Proof.
  exists (S (length hp)), (final_tagName parts fs), l, (length hp),
    (children_of hp args).
  split; [reflexivity|]. split; [apply vnode_store_vnode|].
  split; [rewrite vnode_store_properties; eauto|].
  unfold elems_at. now rewrite vnode_store_children.
Qed.

Lemma vnode_store_tagName :
  prop hp' v "tagName" = Some (VStr (final_tagName parts fs)).
Proof.
  subst v. unfold prop, fields_at. now rewrite vnode_store_vnode.
Qed.

Lemma vnode_store_prop_properties :
  prop hp' v "properties" = Some (VRef l).
Proof.
  subst v. unfold prop, fields_at. now rewrite vnode_store_vnode.
Qed.

Lemma vnode_store_fields :
  fields_at hp' l = final_fields parts hp fs.
Proof.
  unfold fields_at. rewrite vnode_store_properties. now destruct o.
Qed.

Lemma vnode_store_property k :
  vnode_property hp' v k = get_field k (final_fields parts hp fs).
Proof.
  unfold vnode_property. rewrite vnode_store_prop_properties.
  unfold prop. now rewrite vnode_store_fields.
Qed.

Lemma vnode_store_vnode_children :
  vnode_children hp' v = Some (children_of hp args).
Proof.
  unfold vnode_children. subst v. unfold prop, fields_at.
  rewrite vnode_store_vnode. simpl. unfold elems_at.
  now rewrite vnode_store_children.
Qed.
End vnode_store.

(** ** [h] and its table of overloads *)

Lemma isVNode_ref l hp :
  isVNode (VRef l) hp = Ok (is_VNode_like hp (VRef l), hp).
Proof.
  unfold isVNode, bind. simpl.
  destruct (has_field "tagName" (fields_at hp l)); reflexivity.
Qed.

Lemma h_resolve selector arguments hp :
  h selector arguments hp
  = if guard_raises arguments then Throw TypeError
    else apply_overload (resolve hp selector arguments) hp.
Proof.
  unfold h, guard_raises, resolve.
  destruct (hd VUndefined arguments) as [| |b|n|f|l] eqn:Hfirst;
    try reflexivity.
  - (* a string *)
    destruct (hd VUndefined (tl arguments)) as [| |b|n|s|r] eqn:Hr0; simpl.
    + destruct (isClassOrId f); reflexivity.
    + destruct (isClassOrId f); reflexivity.
    + destruct b; [reflexivity|]. destruct (isClassOrId f); reflexivity.
    + destruct (n =? 0)%Z; [|reflexivity].
      destruct (isClassOrId f); reflexivity.
    + destruct (String.eqb s ""); [|reflexivity].
      destruct (isClassOrId f); reflexivity.
    + rewrite (bind_Ok _ _ _ _ _ (isVNode_ref r hp)). simpl.
      destruct (has_field "tagName" (fields_at hp r)
                && has_field "properties" (fields_at hp r));
        destruct (isClassOrId f); reflexivity.
  - (* an object *)
    rewrite (bind_Ok _ _ _ _ _ (isVNode_ref l hp)). simpl.
    destruct (has_field "tagName" (fields_at hp l)
              && has_field "properties" (fields_at hp l)); [reflexivity|].
    unfold bind at 1. simpl. destruct (elems_at hp l); reflexivity.
Qed.

Lemma allocated_hd hp args :
  Forall (allocated hp) args -> allocated hp (hd VUndefined args).
Proof. intros [|]; simpl; auto. Qed.

Lemma allocated_tl hp args :
  Forall (allocated hp) args -> Forall (allocated hp) (tl args).
Proof. intros [|]; simpl; auto. Qed.

Lemma resolve_given_allocated hp selector arguments p :
  Forall (allocated hp) arguments ->
  o_properties (resolve hp selector arguments) = Given p ->
  allocated hp p.
Proof.
  intros Hall. pose proof (allocated_hd _ _ Hall) as H1.
  pose proof (allocated_hd _ _ (allocated_tl _ _ Hall)) as H2.
  unfold resolve.
  destruct (hd VUndefined arguments) as [| |b|n|f|l]; simpl;
    try (intros [= <-]; exact H1).
  - destruct (isClassOrId f); [|discriminate].
    destruct (is_VNode_like hp _); [discriminate|].
    simpl. intros [= <-]. exact H2.
  - destruct (_ && _); [discriminate|].
    destruct (elems_at hp l); [discriminate|].
    simpl. intros [= <-]. exact H1.
Qed.

Lemma lookup_fields_at (hp : heap) l o :
  hp !! l = Some o -> fields_at hp l = obj_fields o.
Proof. intros E. unfold fields_at. now rewrite E. Qed.

(** [h] returns exactly when the guard does not raise, the selector has
    tokens (or is empty) and the [properties] argument has a place; and
    then the result is the one [createVNode] builds. *)
Lemma apply_overload_Ok hp ov parts hp0 l :
  matchSelector (o_selector ov) = Some parts ->
  properties_place hp (o_properties ov) = Some (hp0, l) ->
  is_Some (hp0 !! l) ->
  apply_overload ov hp
  = Ok (VRef (S (length hp0)),
        vnode_store parts l (fields_at hp0 l) hp0 (o_children ov)).
Proof.
  intros Hparts Hplace [o Ho]. rewrite (lookup_fields_at _ _ _ Ho).
  unfold apply_overload. destruct (o_properties ov) as [|p]; simpl in Hplace.
  - injection Hplace as <- <-.
    unfold bind, alloc. now apply createVNode_object.
  - destruct (truthy p) eqn:Hp.
    + destruct p; try discriminate. injection Hplace as <- <-.
      now apply createVNode_object.
    + injection Hplace as <- <-. rewrite createVNode_falsy by done.
      now apply createVNode_object.
Qed.

Lemma properties_place_is_Some hp pa hp0 l :
  (forall p, pa = Given p -> allocated hp p) ->
  properties_place hp pa = Some (hp0, l) ->
  is_Some (hp0 !! l).
Proof.
  intros Hall. destruct pa as [|p]; simpl.
  - intros [= <- <-]. rewrite list_lookup_middle; eauto.
  - destruct (truthy p).
    + destruct p; try discriminate. intros [= <- <-].
      apply lookup_lt_is_Some. exact (Hall _ eq_refl).
    + intros [= <- <-]. rewrite list_lookup_middle; eauto.
Qed.

Lemma apply_overload_inv hp ov v hp' :
  apply_overload ov hp = Ok (v, hp') ->
  exists parts hp0 l,
    matchSelector (o_selector ov) = Some parts /\
    properties_place hp (o_properties ov) = Some (hp0, l).
Proof.
  intros E.
  destruct (matchSelector (o_selector ov)) as [parts|] eqn:Hparts.
  2:{ unfold apply_overload in E. destruct (o_properties ov).
      - unfold bind, alloc in E.
        now rewrite createVNode_no_token in E.
      - now rewrite createVNode_no_token in E. }
  destruct (properties_place hp (o_properties ov)) as [[hp0 l]|] eqn:Hplace;
    [eauto|].
  exfalso. unfold apply_overload in E.
  destruct (o_properties ov) as [|p]; [discriminate|]. simpl in Hplace.
  destruct (truthy p) eqn:Hp; [|discriminate].
  eapply raises_not_Ok; [|exact E].
  apply createVNode_primitive; [done|].
  intros l ->. discriminate.
Qed.

Lemma h_Ok_inv selector arguments hp v hp' :
  Forall (allocated hp) arguments ->
  h selector arguments hp = Ok (v, hp') ->
  let ov := resolve hp selector arguments in
  exists parts hp0 l,
    guard_raises arguments = false /\
    matchSelector (o_selector ov) = Some parts /\
    properties_place hp (o_properties ov) = Some (hp0, l) /\
    is_Some (hp0 !! l) /\
    v = VRef (S (length hp0)) /\
    hp' = vnode_store parts l (fields_at hp0 l) hp0 (o_children ov).
Proof.
  intros Hall E ov. rewrite h_resolve in E.
  destruct (guard_raises arguments); [discriminate|]. fold ov in E.
  destruct (apply_overload_inv _ _ _ _ E) as (parts & hp0 & l & Hparts & Hplace).
  assert (Hsome : is_Some (hp0 !! l)).
  { eapply properties_place_is_Some; [|exact Hplace].
    intros p Hp. eapply resolve_given_allocated; eauto. }
  rewrite (apply_overload_Ok _ _ _ _ _ Hparts Hplace Hsome) in E.
  injection E as <- <-. exists parts, hp0, l. split_and!; done.
Qed.

Lemma h_Ok_intro selector arguments hp parts hp0 l :
  let ov := resolve hp selector arguments in
  (forall p, o_properties ov = Given p -> allocated hp p) ->
  guard_raises arguments = false ->
  matchSelector (o_selector ov) = Some parts ->
  properties_place hp (o_properties ov) = Some (hp0, l) ->
  h selector arguments hp
  = Ok (VRef (S (length hp0)),
        vnode_store parts l (fields_at hp0 l) hp0 (o_children ov)).
Proof.
  intros ov Hall Hguard Hparts Hplace. rewrite h_resolve, Hguard.
  apply apply_overload_Ok; [done..|].
  eapply properties_place_is_Some; [|exact Hplace]. exact Hall.
Qed.

(** ** The selector, token by token *)

Lemma length_drop_while p s :
  String.length (drop_while p s) <= String.length s.
Proof.
  induction s as [|c r IH]; simpl; [lia|].
  destruct (p c); simpl; lia.
Qed.

(** The scan does not depend on the fuel once there is as much of it as the
    string is long. *)
Lemma scan_enough_fuel n m s :
  String.length s <= n -> String.length s <= m -> scan n s = scan m s.
Proof.
  revert m s. induction n as [|n IH]; intros m s Hn Hm.
  - destruct s; [|simpl in Hn; lia]. now destruct m.
  - destruct m as [|m]; [destruct s; [done|simpl in Hm; lia]|].
    destruct s as [|c r]; [done|]. simpl in Hn, Hm. simpl.
    pose proof (length_drop_while is_word r).
    pose proof (length_drop_while not_hash_dot r).
    destruct (is_word c).
    + f_equal. apply IH; lia.
    + destruct (is_hash_dot c); [|apply IH; lia].
      destruct r as [|d r']; [done|].
      destruct (not_hash_dot d) eqn:Hd.
      * f_equal. apply IH; cbn [String.length] in *; lia.
      * apply IH; cbn [String.length] in *; lia.
Qed.

Lemma scan_nil_iff n s :
  String.length s <= n -> scan n s = [] <-> has_token s = false.
Proof.
  revert n. induction s as [|c r IH]; intros n Hn.
  - now destruct n.
  - destruct n as [|n]; [simpl in Hn; lia|]. simpl in Hn. simpl.
    destruct (is_word c); [done|]. simpl.
    destruct (is_hash_dot c); simpl; [|apply IH; lia].
    destruct r as [|d r']; [done|].
    destruct (not_hash_dot d); [done|]. apply IH. simpl in *. lia.
Qed.

(** [matchSelector] gives an array for the empty selector and for a
    selector in which a token starts, and [null] otherwise. *)
Lemma matchSelector_is_Some selector :
  is_Some (matchSelector selector)
  <-> selector = "" \/ has_token selector = true.
Proof.
  unfold matchSelector, regex_match, match_all.
  destruct selector as [|c r]; [split; eauto|].
  pose proof (scan_nil_iff (String.length (String c r)) (String c r)
                (Nat.le_refl _)) as Hnil.
  destruct (scan _ _) as [|t ts].
  - split; [intros [? [=]]|]. intros [[=]|Ht].
    rewrite (proj1 Hnil eq_refl) in Ht. discriminate.
  - split; [|eauto]. intros _. right.
    destruct (has_token (String c r)) eqn:E; [done|].
    now pose proof (proj2 Hnil eq_refl).
Qed.

(** Every token is a run of word characters or starts with [#] or [.];
    a [:] is not a word character, so no token that reaches the third
    branch of the loop starts with [svg:]: in [h("svg:circle")] the tokens
    are [svg] and [circle]. *)
Lemma take_while_idem p s : take_while p (take_while p s) = take_while p s.
Proof.
  induction s as [|c r IH]; [done|]. simpl.
  destruct (p c) eqn:E; [|done]. simpl. now rewrite E, IH.
Qed.

Lemma scan_tokens n s :
  Forall (fun t => is_fragment t = true \/ take_while is_word t = t)
    (scan n s).
Proof.
  revert s. induction n as [|n IH]; intros s; [constructor|].
  destruct s as [|c r]; [constructor|]. simpl.
  destruct (is_word c) eqn:Hw.
  - constructor; [|apply IH]. right.
    change (String c (take_while is_word r))
      with (if true then String c (take_while is_word r) else "").
    rewrite <- Hw. change (take_while is_word (take_while is_word (String c r))
                           = take_while is_word (String c r)).
    apply take_while_idem.
  - destruct (is_hash_dot c) eqn:Hh; [|apply IH].
    destruct r as [|d r']; [constructor|].
    destruct (not_hash_dot d); [|apply IH].
    constructor; [|apply IH]. left.
    unfold is_fragment, first_is. unfold is_hash_dot in Hh.
    now rewrite (Ascii.eqb_sym c "#"), (Ascii.eqb_sym c ".") in Hh.
Qed.

Lemma startsWith_svg t :
  startsWith t "svg:" = true -> exists r, t = "svg:" +:+ r.
Proof.
  unfold startsWith. intros E. apply String.prefix_correct in E.
  destruct t as [|a [|b [|c [|d r]]]]; try discriminate.
  injection E as -> -> -> -> _. now exists r.
Qed.

Lemma word_token_no_svg_prefix t :
  take_while is_word t = t -> startsWith t "svg:" = false.
Proof.
  intros Ht. destruct (startsWith t "svg:") eqn:E; [|done].
  apply startsWith_svg in E as [r ->]. discriminate.
Qed.

Lemma matchSelector_tokens selector parts :
  matchSelector selector = Some parts ->
  Forall (fun t => is_fragment t = true \/ startsWith t "svg:" = false) parts.
Proof.
  intros E.
  assert (Hscan : Forall (fun t => is_fragment t = true
                                   \/ take_while is_word t = t) parts).
  { unfold matchSelector, regex_match, match_all in E.
    destruct selector as [|c r]; [injection E as <-; constructor|].
    pose proof (scan_tokens (String.length (String c r)) (String c r)) as H.
    destruct (scan _ _); [discriminate|]. now injection E as <-. }
  eapply Forall_impl; [exact Hscan|].
  intros t [Hf|Hw]; [now left|right]. now apply word_token_no_svg_prefix.
Qed.

Lemma matchSelector_None selector :
  matchSelector selector = None
  <-> selector <> "" /\ has_token selector = false.
Proof.
  pose proof (matchSelector_is_Some selector) as H.
  destruct (matchSelector selector) as [parts|].
  - split; [discriminate|]. intros [Hne Ht].
    destruct (proj1 H (mk_is_Some _ _ eq_refl)) as [->|Ht']; [done|].
    congruence.
  - split; [|done]. intros _. split.
    + intros ->. destruct (proj2 H (or_introl eq_refl)) as [? [=]].
    + destruct (has_token selector); [|done].
      destruct (proj2 H (or_intror eq_refl)) as [? [=]].
Qed.

Lemma o_selector_resolve hp selector arguments :
  o_selector (resolve hp selector arguments)
  = effective_selector selector arguments.
Proof.
  unfold resolve, effective_selector.
  destruct (hd VUndefined arguments) as [| |b|n|f|l]; try reflexivity.
  - destruct (isClassOrId f); [|reflexivity].
    destruct (is_VNode_like hp _); reflexivity.
  - destruct (is_VNode_like hp _); [reflexivity|].
    destruct (elems_at hp l); reflexivity.
Qed.

Lemma first_is_hash_dot part :
  first_is "#" part = true -> first_is "." part = false.
Proof.
  destruct part as [|c r]; [done|]. simpl.
  intros E. apply Ascii.eqb_eq in E. now subst c.
Qed.

Lemma classes_fold_left parts st :
  classes (fold_left next_locals parts st)
  = classes st ++ map VStr (class_names parts).
Proof.
  revert st. induction parts as [|part parts IH]; intros st; simpl.
  - now rewrite app_nil_r.
  - rewrite IH. unfold next_locals, class_names. simpl List.filter.
    destruct (first_is "#" part) eqn:Eh.
    + now rewrite (first_is_hash_dot _ Eh).
    + destruct (first_is "." part); simpl.
      * now rewrite <- app_assoc.
      * destruct (startsWith part "svg:"); reflexivity.
Qed.

Lemma classes_locals_of parts :
  classes (locals_of parts) = map VStr (class_names parts).
Proof. unfold locals_of. now rewrite classes_fold_left. Qed.

Lemma last_cons_default {A} (x d : A) l :
  List.last (x :: l) d = List.last l x.
Proof.
  revert x d. induction l as [|y l IH]; intros x d; [done|].
  change (List.last (x :: y :: l) d) with (List.last (y :: l) d).
  rewrite IH. symmetry. apply IH.
Qed.

Lemma tagName_fold_left parts st :
  tagName (fold_left next_locals parts st)
  = List.last
      (map tag_of (List.filter (fun p => negb (is_fragment p)) parts))
      (tagName st).
Proof.
  revert st. induction parts as [|part parts IH]; intros st; [done|].
  simpl fold_left. rewrite IH. unfold next_locals, is_fragment.
  simpl List.filter.
  destruct (first_is "#" part); [reflexivity|].
  destruct (first_is "." part); [reflexivity|]. simpl negb. cbv iota.
  rewrite map_cons, last_cons_default.
  destruct (startsWith part "svg:") eqn:E; unfold tag_of; rewrite E;
    reflexivity.
Qed.

Lemma tagName_locals_of parts :
  tagName (locals_of parts) = selector_tagName parts.
Proof. unfold locals_of. now rewrite tagName_fold_left. Qed.

Lemma to_string_VStr fuel hp s : to_string fuel hp (VStr s) = s.
Proof. now destruct fuel. Qed.

(** [join] on strings does not look into the store. *)
Lemma array_join_strings sep hp l :
  array_join sep hp (map VStr l) = join_strings sep l.
Proof.
  unfold array_join. rewrite map_map. f_equal.
  induction l as [|x l IH]; [done|].
  rewrite map_cons, IH. simpl not_nullish. cbv iota.
  now rewrite to_string_VStr.
Qed.

Lemma get_xmlns_final_fields parts hp fs :
  get_field "xmlns" (final_fields parts hp fs)
  = get_field "xmlns" (fields_before_class parts fs).
Proof.
  unfold final_fields, fields_after_class.
  destruct (0 <? _)%nat; [|reflexivity].
  rewrite get_set_field_ne by done.
  destruct (has_field "class" _); [|reflexivity].
  rewrite get_delete_field_ne by done. now rewrite get_set_field_ne.
Qed.

Lemma final_tagName_spec parts hp fs :
  final_tagName parts fs
  = if truthy (default VUndefined
                 (get_field "xmlns" (final_fields parts hp fs)))
    then selector_tagName parts else toUpperCase (selector_tagName parts).
Proof.
  unfold final_tagName.
  now rewrite get_xmlns_final_fields, tagName_locals_of.
Qed.

Lemma final_fields_nil parts hp :
  final_fields parts hp [] = selector_properties parts.
Proof.
  unfold final_fields, fields_before_class, fields_after_parts,
    fields_after_id, fields_after_class, pushed_classes, selector_properties.
  rewrite classes_locals_of. simpl truthy.
  destruct (existsb sets_xmlns parts);
    destruct (String.eqb (id (locals_of parts)) ""); simpl;
    rewrite app_nil_r, length_map;
    (destruct (class_names parts) as [|c cs] eqn:Ec; simpl; [reflexivity|]);
    change (VStr c :: map VStr cs) with (map VStr (c :: cs));
    rewrite array_join_strings; reflexivity.
Qed.

(** ** When [h] returns *)

Lemma supported_guard arguments :
  supported arguments = true -> guard_raises arguments = false.
Proof.
  unfold supported, guard_raises, falsy_or_object.
  destruct (hd VUndefined arguments); try reflexivity.
  destruct (truthy _), (is_ref _); simpl; congruence.
Qed.

Lemma supported_place hp selector arguments :
  supported arguments = true ->
  exists hp0 l,
    properties_place hp (o_properties (resolve hp selector arguments))
    = Some (hp0, l).
Proof.
  unfold supported, falsy_or_object, resolve.
  destruct (hd VUndefined arguments) as [| |b|n|f|l] eqn:Hfirst; simpl.
  - eauto.
  - eauto.
  - destruct b; [discriminate|]. simpl. eauto.
  - destruct (n =? 0)%Z; [|discriminate]. simpl. eauto.
  - intros Hr. destruct (isClassOrId f); [|simpl; eauto].
    destruct (is_VNode_like hp _); simpl; [eauto|].
    destruct (truthy (hd VUndefined (tl arguments))); [|eauto].
    destruct (hd VUndefined (tl arguments)); try discriminate. eauto.
  - intros _. destruct (_ && _); simpl; [eauto|].
    destruct (elems_at hp l); simpl; eauto.
Qed.

Lemma h_returns selector arguments hp parts :
  Forall (allocated hp) arguments ->
  supported arguments = true ->
  matchSelector (effective_selector selector arguments) = Some parts ->
  exists hp0 l,
    is_Some (hp0 !! l) /\
    h selector arguments hp
    = Ok (VRef (S (length hp0)),
          vnode_store parts l (fields_at hp0 l) hp0
            (o_children (resolve hp selector arguments))).
Proof.
  intros Hall Hsup Hparts.
  destruct (supported_place hp selector arguments Hsup) as (hp0 & l & Hplace).
  assert (Hgiven : forall p,
    o_properties (resolve hp selector arguments) = Given p -> allocated hp p)
    by (intros p; now apply resolve_given_allocated).
  exists hp0, l. split.
  - eapply properties_place_is_Some; eauto.
  - apply h_Ok_intro; auto using supported_guard.
    now rewrite o_selector_resolve.
Qed.

Lemma o_children_resolve hp selector arguments :
  o_children (resolve hp selector arguments)
  = children_arguments hp arguments.
Proof.
  unfold resolve, children_arguments.
  destruct (hd VUndefined arguments) as [| |b|n|f|l]; try reflexivity.
  - destruct (isClassOrId f); [|reflexivity].
    destruct (is_VNode_like hp _); reflexivity.
  - destruct (is_VNode_like hp _); [reflexivity|].
    destruct (elems_at hp l); reflexivity.
Qed.

Lemma elems_at_snoc_obj hp fs j :
  elems_at (hp ++ [JObj fs]) j = elems_at hp j.
Proof.
  unfold elems_at. destruct (decide (j < length hp)) as [Hlt|Hge].
  - now rewrite lookup_app_l.
  - rewrite lookup_app_r by lia. rewrite (lookup_ge_None_2 hp) by lia.
    destruct (j - length hp) as [|[|?]]; reflexivity.
Qed.

Lemma properties_place_elems hp pa hp0 l j :
  properties_place hp pa = Some (hp0, l) ->
  elems_at hp0 j = elems_at hp j.
Proof.
  destruct pa as [|p]; simpl.
  - intros [= <- <-]. apply elems_at_snoc_obj.
  - destruct (truthy p).
    + destruct p; try discriminate. now intros [= <- <-].
    + intros [= <- <-]. apply elems_at_snoc_obj.
Qed.

Lemma properties_place_children hp pa hp0 l args :
  properties_place hp pa = Some (hp0, l) ->
  children_of hp0 args = children_of hp args.
Proof.
  intros Hplace. unfold children_of. f_equal. apply concat_spread_ext.
  intros j. eapply properties_place_elems; eauto.
Qed.

Lemma filter_not_nullish (l : list value) :
  List.filter not_nullish l
  = filter (fun x => x <> VUndefined /\ x <> VNull) l.
Proof.
  induction l as [|x l IH]; [done|]. simpl. rewrite filter_cons, IH.
  destruct (decide (x <> VUndefined /\ x <> VNull)) as [[]|Hd];
    destruct x; try reflexivity; try congruence;
    exfalso; apply Hd; split; discriminate.
Qed.

(** ** C6: the SVG namespace *)(** ** C6: the SVG namespace *)

(** C6.  [h("svg:circle")] returns a VNode whose [tagName] is exactly
    ["circle"] and whose [properties.xmlns] is the SVG namespace, and
    [h("svg")] returns a VNode whose [tagName] is exactly ["svg"] with the
    same [properties.xmlns]; in whatever store the call is made. *)
Theorem svg_selectors_set_namespace (hp : heap) :
  (exists v hp',
     h "svg:circle" [] hp = Ok (v, hp') /\
     prop hp' v "tagName" = Some (VStr "circle") /\
     vnode_property hp' v "xmlns" = Some (VStr "http://www.w3.org/2000/svg"))
  /\
  (exists v hp',
     h "svg" [] hp = Ok (v, hp') /\
     prop hp' v "tagName" = Some (VStr "svg") /\
     vnode_property hp' v "xmlns" = Some (VStr "http://www.w3.org/2000/svg")).
Proof.
  assert (Hl : (hp ++ [JObj []]) !! length hp = Some (JObj []))
    by now rewrite list_lookup_middle.
  split.
  - eexists _, _. split; [|split].
    + exact (createVNode_new "svg:circle" ["svg"; "circle"] VUndefined [] hp
               eq_refl eq_refl).
    + pose proof (vnode_store_tagName ["svg"; "circle"] (length hp)
                    (hp ++ [JObj []]) [] []) as E.
      rewrite length_app, Nat.add_1_r in E. exact E.
    + pose proof (vnode_store_property ["svg"; "circle"] _ _ _ [] [] Hl
                    "xmlns") as E.
      rewrite length_app, Nat.add_1_r in E.
      rewrite E. now rewrite final_fields_nil.
  - eexists _, _. split; [|split].
    + exact (createVNode_new "svg" ["svg"] VUndefined [] hp eq_refl eq_refl).
    + pose proof (vnode_store_tagName ["svg"] (length hp)
                    (hp ++ [JObj []]) [] []) as E.
      rewrite length_app, Nat.add_1_r in E. exact E.
    + pose proof (vnode_store_property ["svg"] _ _ _ [] [] Hl "xmlns") as E.
      rewrite length_app, Nat.add_1_r in E.
      rewrite E. now rewrite final_fields_nil.
Qed.

(** ** C7: selectors without a tag token *)

(** A selector whose tokens are all [#id] or [.class] fragments, the empty
    selector included, gives the tag [DIV]. *)
Lemma fragments_only_tagName parts :
  forallb is_fragment parts = true ->
  final_tagName parts [] = "DIV".
Proof.
  intros Hfr.
  assert (Hx : existsb sets_xmlns parts = false).
  { induction parts as [|p parts IH]; [done|].
    simpl in Hfr. apply andb_prop in Hfr as [Hp Hr].
    simpl. rewrite (IH Hr). unfold sets_xmlns, is_fragment in *.
    destruct (first_is "#" p), (first_is "." p); done. }
  assert (Ht : selector_tagName parts = "div").
  { unfold selector_tagName. clear Hx.
    induction parts as [|p parts IH]; [done|].
    simpl in Hfr. apply andb_prop in Hfr as [Hp Hr].
    simpl. rewrite Hp. simpl. exact (IH Hr). }
  rewrite (final_tagName_spec parts [] []), final_fields_nil, Ht.
  unfold selector_properties. rewrite Hx. simpl.
  destruct (String.eqb _ ""); destruct (class_names parts); reflexivity.
Qed.

Lemma h_fragments_only selector parts hp :
  matchSelector selector = Some parts ->
  forallb is_fragment parts = true ->
  exists v hp',
    h selector [] hp = Ok (v, hp') /\
    prop hp' v "tagName" = Some (VStr "DIV").
Proof.
  intros Hparts Hfr. eexists _, _. split.
  - exact (createVNode_new selector parts VUndefined [] hp Hparts eq_refl).
  - pose proof (vnode_store_tagName parts (length hp)
                  (hp ++ [JObj []]) [] []) as E.
    rewrite length_app, Nat.add_1_r in E. rewrite E.
    now rewrite fragments_only_tagName.
Qed.

(** A selector that is not empty and in which no token starts makes [h]
    raise, whatever the arguments. *)
Lemma h_without_token_raises selector hp :
  selector <> "" -> has_token selector = false ->
  h selector [] hp = Throw TypeError.
Proof.
  intros Hne Ht. apply (createVNode_no_token selector VUndefined [] hp).
  now apply matchSelector_None.
Qed.

(** C7, at the selector ["!!!"]: none of its characters belongs to a
    token, [match] returns [null], and the loop over [parts] raises a
    [TypeError]; no VNode, and so no tag [DIV], comes back. *)
Theorem h_selector_without_token_raises (hp : heap) :
  matchSelector "!!!" = None /\
  h "!!!" [] hp = Throw TypeError.
Proof.
  split; [reflexivity|].
  exact (createVNode_no_token "!!!" VUndefined [] hp eq_refl).
Qed.

(** ** C2: when [h] returns and when it raises *)


Lemma call_shape_supported arguments :
  call_shape arguments = true -> supported arguments = true.
Proof.
  unfold call_shape, supported, falsy_or_object.
  destruct (hd VUndefined arguments); try done.
  now destruct (hd VUndefined (tl arguments)).
Qed.



(** ** C4: children *)

(** C4, refuted as stated: a [0] given as the first argument is taken as
    the [properties] argument and is not a child, and two text children
    given one after the other make the call raise. *)
Lemma children_not_always_kept :
  (exists v hp',
     h "div" [VNum 0] [] = Ok (v, hp') /\ vnode_children hp' v = Some [])
  /\ h "div" [VStr "a"; VStr "b"] [] = Throw TypeError.
Proof.
  split; [|reflexivity].
  eexists _, _. split; [lazy; reflexivity|reflexivity].
Qed.

(** C4, amended.  Whenever [h] returns a VNode, its [children] are the
    arguments that the shape of the call makes children (see
    [children_arguments]), flattened one level, without [null] and
    [undefined], every other value kept in order. *)
Theorem children_flattened_and_filtered selector arguments hp v hp' :
  Forall (allocated hp) arguments ->
  h selector arguments hp = Ok (v, hp') ->
  vnode_children hp' v
  = Some (filter (fun x => x <> VUndefined /\ x <> VNull)
            (concat_spread hp (children_arguments hp arguments))).
Proof.
  intros Hall E.
  destruct (h_Ok_inv _ _ _ _ _ Hall E)
    as (parts & hp0 & l & _ & _ & Hplace & _ & -> & ->).
  rewrite vnode_store_vnode_children.
  rewrite (properties_place_children _ _ _ _ _ Hplace).
  unfold children_of. now rewrite filter_not_nullish, o_children_resolve.
Qed.

Lemma children_flattened_and_filtered_witness :
  Forall (allocated array_store) [VNull; VRef 0; VUndefined; VBool false] /\
  h "div" [VNull; VRef 0; VUndefined; VBool false] array_store
  = Ok (VRef 3,
        array_store
        ++ [JObj [];
            JArr [VNum 0; VStr ""; VRef 0; VBool false] [];
            JObj [("tagName", VStr "DIV"); ("properties", VRef 1);
                  ("children", VRef 2)]]) /\
  vnode_children
    (array_store
     ++ [JObj [];
         JArr [VNum 0; VStr ""; VRef 0; VBool false] [];
         JObj [("tagName", VStr "DIV"); ("properties", VRef 1);
               ("children", VRef 2)]])
    (VRef 3)
  = Some (filter (fun x => x <> VUndefined /\ x <> VNull)
            (concat_spread array_store
               (children_arguments array_store
                  [VNull; VRef 0; VUndefined; VBool false]))).
Proof.
  assert (H1 : Forall (allocated array_store)
                 [VNull; VRef 0; VUndefined; VBool false])
    by (repeat constructor).
  assert (H2 : h "div" [VNull; VRef 0; VUndefined; VBool false] array_store
               = Ok (VRef 3,
                     array_store
                     ++ [JObj [];
                         JArr [VNum 0; VStr ""; VRef 0; VBool false] [];
                         JObj [("tagName", VStr "DIV");
                               ("properties", VRef 1);
                               ("children", VRef 2)]]))
    by reflexivity.
  exact (conj H1 (conj H2
           (children_flattened_and_filtered "div" _ _ _ _ H1 H2))).
Defined.

(** ** C8: the case of the tag *)

(** C8, refuted as stated: with an explicit [xmlns] that is the empty
    string, [properties.xmlns] is present in the result and the tag is
    upper-cased all the same. *)
Lemma present_xmlns_does_not_keep_case :
  exists v hp',
    h "test" [VRef 0] [JObj [("xmlns", VStr "")]] = Ok (v, hp') /\
    has_field "xmlns" (fields_at hp' 0) = true /\
    vnode_property hp' v "xmlns" = Some (VStr "") /\
    prop hp' v "tagName" = Some (VStr "TEST").
Proof. eexists _, _. split; [lazy; reflexivity|repeat split]. Qed.

(** C8, amended.  On every VNode [h] returns, the tag is the tag name the
    selector names, kept as written when [properties.xmlns] is truthy in
    the result, and upper-cased when it is absent or falsy. *)
Theorem tagName_case_follows_xmlns selector arguments hp v hp' :
  Forall (allocated hp) arguments ->
  h selector arguments hp = Ok (v, hp') ->
  exists parts,
    matchSelector (effective_selector selector arguments) = Some parts /\
    prop hp' v "tagName"
    = Some (VStr
        (if truthy (default VUndefined (vnode_property hp' v "xmlns"))
         then selector_tagName parts
         else toUpperCase (selector_tagName parts))).
Proof.
  intros Hall E.
  destruct (h_Ok_inv _ _ _ _ _ Hall E)
    as (parts & hp0 & l & _ & Hparts & _ & [o Ho] & -> & ->).
  exists parts. split; [now rewrite <- (o_selector_resolve hp)|].
  rewrite vnode_store_tagName, (vnode_store_property _ _ _ _ _ _ Ho).
  now rewrite (final_tagName_spec parts hp0).
Qed.

Lemma tagName_case_follows_xmlns_witness :
  Forall (allocated xml_store) [VRef 0] /\
  h "test" [VRef 0] xml_store
  = Ok (VRef 2,
        xml_store
        ++ [JArr [] [];
            JObj [("tagName", VStr "test"); ("properties", VRef 0);
                  ("children", VRef 1)]]) /\
  exists parts,
    matchSelector (effective_selector "test" [VRef 0]) = Some parts /\
    prop (xml_store
          ++ [JArr [] [];
              JObj [("tagName", VStr "test"); ("properties", VRef 0);
                    ("children", VRef 1)]])
      (VRef 2) "tagName"
    = Some (VStr
        (if truthy
              (default VUndefined
                 (vnode_property
                    (xml_store
                     ++ [JArr [] [];
                         JObj [("tagName", VStr "test");
                               ("properties", VRef 0);
                               ("children", VRef 1)]])
                    (VRef 2) "xmlns"))
         then selector_tagName parts
         else toUpperCase (selector_tagName parts))).
Proof.
  assert (H1 : Forall (allocated xml_store) [VRef 0]) by (repeat constructor).
  assert (H2 : h "test" [VRef 0] xml_store
               = Ok (VRef 2,
                     xml_store
                     ++ [JArr [] [];
                         JObj [("tagName", VStr "test");
                               ("properties", VRef 0);
                               ("children", VRef 1)]]))
    by reflexivity.
  exact (conj H1 (conj H2 (tagName_case_follows_xmlns "test" _ _ _ _ H1 H2))).
Defined.

(** ** C5: className *)

Lemma get_before_class k parts fs :
  k <> "xmlns" -> k <> "id" ->
  get_field k (fields_before_class parts fs) = get_field k fs.
Proof.
  intros Hx Hi. unfold fields_before_class, fields_after_id, fields_after_parts.
  destruct (_ && _); [rewrite get_set_field_ne by done|];
    (destruct (existsb sets_xmlns parts);
     [now rewrite get_set_field_ne|reflexivity]).
Qed.

Lemma pushed_classes_spec parts fs :
  pushed_classes (locals_of parts) (fields_before_class parts fs)
  = map VStr (class_names parts) ++ explicit_className fs.
Proof.
  unfold pushed_classes, explicit_className, has_field.
  rewrite classes_locals_of, get_before_class by done.
  now destruct (get_field "className" fs).
Qed.

Lemma final_fields_className parts hp fs :
  map VStr (class_names parts) ++ explicit_className fs <> [] ->
  get_field "className" (final_fields parts hp fs)
  = Some (VStr (array_join " " hp
                  (map VStr (class_names parts) ++ explicit_className fs)))
  /\ get_field "class" (final_fields parts hp fs) = None.
Proof.
  intros Hne. unfold final_fields, fields_after_class.
  rewrite pushed_classes_spec.
  destruct (map VStr (class_names parts) ++ explicit_className fs) as [|c cs]
    eqn:E; [done|].
  change (0 <? length (c :: cs))%nat with true. cbv iota.
  split; [apply get_set_field_eq|].
  rewrite get_set_field_ne by done.
  destruct (has_field "class" _) eqn:Hc.
  - apply get_delete_field_eq.
  - unfold has_field in Hc. now destruct (get_field "class" _).
Qed.

Lemma selector_classes_tokens selector :
  selector_classes selector <> [] ->
  matchSelector selector = Some (match_all selector).
Proof.
  unfold selector_classes, matchSelector, regex_match. intros Hne.
  destruct selector as [|c r]; [done|].
  now destruct (match_all (String c r)).
Qed.

(** A properties map as first argument goes to [createVNode] as it is. *)
Lemma h_properties_map selector l fs rest hp parts :
  hp !! l = Some (JObj fs) ->
  is_VNode_like hp (VRef l) = false ->
  matchSelector selector = Some parts ->
  h selector (VRef l :: rest) hp
  = Ok (VRef (S (length hp)), vnode_store parts l fs hp rest).
Proof.
  intros Hl Hnv Hparts. rewrite h_resolve. simpl guard_raises. cbv iota.
  unfold resolve. simpl hd. simpl tl. rewrite Hnv.
  unfold elems_at. rewrite Hl. unfold apply_overload. simpl.
  now rewrite (createVNode_object _ parts _ _ _ _ Hparts Hl).
Qed.

Lemma explicit_className_text fs :
  className_is_text fs ->
  explicit_className fs = map VStr (explicit_class_names fs).
Proof.
  unfold className_is_text, explicit_className, explicit_class_names.
  destruct (get_field "className" fs) as [[]|]; done.
Qed.

(** The merged [className], for a map whose own [className] is a string or
    is missing: the classes of the selector, then that string, joined by
    spaces; no [className] at all when there is neither. *)
Lemma final_fields_className_text parts hp fs :
  className_is_text fs ->
  get_field "className" (final_fields parts hp fs)
  = match class_names parts ++ explicit_class_names fs with
    | [] => None
    | cs => Some (VStr (join_strings " " cs))
    end.
Proof.
  intros Htext.
  destruct (class_names parts ++ explicit_class_names fs) as [|c cs] eqn:E.
  - apply app_eq_nil in E as [E1 E2].
    unfold final_fields. rewrite pushed_classes_spec.
    rewrite (explicit_className_text _ Htext), E1, E2. cbn [map app].
    unfold fields_after_class. cbn [length].
    change (0 <? 0)%nat with false. cbv iota.
    rewrite get_before_class by done.
    revert Htext E2. unfold className_is_text, explicit_class_names.
    destruct (get_field "className" fs) as [[]|]; done.
  - assert (Hne : map VStr (class_names parts) ++ explicit_className fs <> []).
    { rewrite (explicit_className_text _ Htext), <- map_app, E. done. }
    destruct (final_fields_className parts hp fs Hne) as [-> _].
    rewrite (explicit_className_text _ Htext), <- map_app, E.
    now rewrite array_join_strings.
Qed.



(** With both keys in the map, [h("div.foo.baz", {class: "old",
    className: "bar"})]: the selector's classes come first, the explicit
    [className] last, and [class] is removed. *)
Lemma className_with_class_key :
  exists v hp',
    h "div.foo.baz" [VRef 0]
      [JObj [("class", VStr "old"); ("className", VStr "bar")]]
    = Ok (v, hp') /\
    vnode_property hp' v "className" = Some (VStr "foo baz bar") /\
    vnode_property hp' v "class" = None /\
    hp' !! 0 = Some (JObj [("className", VStr "foo baz bar")]).
Proof. eexists _, _. split; [lazy; reflexivity|]. repeat split; reflexivity. Qed.

(** ** C10: a VNode as first argument *)

(** C10, refuted as stated: with the selector ["#foo"] the [properties]
    of the result are not empty. *)
Lemma vnode_first_properties_not_empty :
  exists v hp',
    h "#foo" [VRef 2] span_store = Ok (v, hp') /\
    vnode_children hp' v = Some [VRef 2] /\
    vnode_property hp' v "id" = Some (VStr "foo") /\
    fields_at hp' 3 = [("id", VStr "foo")].
Proof. eexists _, _. split; [lazy; reflexivity|repeat split]. Qed.

(** C10, amended.  When [first] is a plain object with both a [tagName]
    key and a [properties] key, it is not used as the properties map: the
    [properties] of the result is a new object that holds what the selector
    supplies and nothing else (nothing at all for a selector without id,
    class and [svg] token), [first] itself is left as it was, and it is
    [children[0]]. *)
Theorem vnode_first_argument_is_child selector parts l fs rest hp :
  hp !! l = Some (JObj fs) ->
  is_VNode_like hp (VRef l) = true ->
  matchSelector selector = Some parts ->
  exists v hp',
    h selector (VRef l :: rest) hp = Ok (v, hp') /\
    prop hp' v "properties" = Some (VRef (length hp)) /\
    fields_at hp' (length hp) = selector_properties parts /\
    hp' !! l = Some (JObj fs) /\
    vnode_children hp' v
    = Some (VRef l :: filter (fun x => x <> VUndefined /\ x <> VNull)
                        (concat_spread hp rest)).
Proof.
  intros Hl Hv Hparts.
  assert (Hnew : (hp ++ [JObj []]) !! length hp = Some (JObj []))
    by now rewrite list_lookup_middle.
  assert (E : h selector (VRef l :: rest) hp
              = Ok (VRef (S (S (length hp))),
                    vnode_store parts (length hp) [] (hp ++ [JObj []])
                      (VRef l :: rest))).
  { rewrite h_resolve. simpl guard_raises. cbv iota.
    unfold resolve. simpl hd. simpl tl. rewrite Hv.
    unfold apply_overload, bind, alloc. simpl.
    rewrite (createVNode_object _ parts _ _ _ _ Hparts Hnew).
    rewrite length_app, Nat.add_1_r. reflexivity. }
  pose proof (lookup_lt_Some _ _ _ Hl) as Hlt.
  eexists _, _. split; [exact E|]. split; [|split; [|split]].
  - pose proof (vnode_store_prop_properties parts (length hp)
                  (hp ++ [JObj []]) [] (VRef l :: rest)) as P.
    rewrite length_app, Nat.add_1_r in P. exact P.
  - rewrite (vnode_store_fields _ _ _ _ _ _ Hnew). apply final_fields_nil.
  - rewrite vnode_store_old.
    + now rewrite lookup_app_l.
    + rewrite length_app. simpl. lia.
    + lia.
  - pose proof (vnode_store_vnode_children parts (length hp)
                  (hp ++ [JObj []]) [] (VRef l :: rest)) as C.
    rewrite length_app, Nat.add_1_r in C. rewrite C. f_equal.
    unfold children_of.
    rewrite (concat_spread_ext _ hp) by (intros; apply elems_at_snoc_obj).
    simpl concat_spread. unfold elems_at at 1. rewrite Hl. simpl.
    now rewrite filter_not_nullish.
Qed.

Lemma vnode_first_argument_is_child_witness :
  span_store !! 2
  = Some (JObj [("tagName", VStr "SPAN"); ("properties", VRef 0);
                ("children", VRef 1)]) /\
  is_VNode_like span_store (VRef 2) = true /\
  matchSelector "div#foo" = Some ["div"; "#foo"] /\
  exists v hp',
    h "div#foo" [VRef 2; VStr "text"] span_store = Ok (v, hp') /\
    prop hp' v "properties" = Some (VRef (length span_store)) /\
    fields_at hp' (length span_store) = selector_properties ["div"; "#foo"] /\
    hp' !! 2
    = Some (JObj [("tagName", VStr "SPAN"); ("properties", VRef 0);
                  ("children", VRef 1)]) /\
    vnode_children hp' v
    = Some (VRef 2 :: filter (fun x => x <> VUndefined /\ x <> VNull)
                        (concat_spread span_store [VStr "text"])).
Proof.
  assert (H1 : span_store !! 2
               = Some (JObj [("tagName", VStr "SPAN"); ("properties", VRef 0);
                             ("children", VRef 1)])) by reflexivity.
  assert (H2 : is_VNode_like span_store (VRef 2) = true) by reflexivity.
  assert (H3 : matchSelector "div#foo" = Some ["div"; "#foo"]) by reflexivity.
  exact (conj H1 (conj H2 (conj H3
           (vnode_first_argument_is_child "div#foo" _ 2 _ [VStr "text"] _
              H1 H2 H3)))).
Defined.

(** ** C3: what a call writes *)

Lemma get_final_fields_other k parts hp fs :
  k <> "xmlns" -> k <> "id" -> k <> "className" -> k <> "class" ->
  get_field k (final_fields parts hp fs) = get_field k fs.
Proof.
  intros Hx Hi Hcn Hc. unfold final_fields, fields_after_class.
  destruct (0 <? _)%nat; [|now apply get_before_class].
  rewrite get_set_field_ne by done.
  destruct (has_field "class" _).
  - rewrite get_delete_field_ne, get_set_field_ne by done.
    now apply get_before_class.
  - now apply get_before_class.
Qed.

Lemma get_xmlns_before_class parts fs :
  get_field "xmlns" (fields_before_class parts fs)
  = if existsb sets_xmlns parts then Some (VStr SVG_NS)
    else get_field "xmlns" fs.
Proof.
  unfold fields_before_class, fields_after_id, fields_after_parts.
  destruct (_ && _); [rewrite get_set_field_ne by done|];
    (destruct (existsb sets_xmlns parts);
     [apply get_set_field_eq|reflexivity]).
Qed.

(** A second run of [createVNode] on the same [properties] object computes
    the same tag. *)
Lemma final_tagName_again parts hp fs :
  final_tagName parts (final_fields parts hp fs) = final_tagName parts fs.
Proof.
  unfold final_tagName.
  rewrite (get_xmlns_before_class parts (final_fields _ _ _)).
  rewrite get_xmlns_final_fields, !get_xmlns_before_class.
  now destruct (existsb sets_xmlns parts).
Qed.

Lemma elems_at_vnode_store parts l fs hp args j :
  j < length hp ->
  elems_at (vnode_store parts l fs hp args) j = elems_at hp j.
Proof.
  intros Hj. unfold vnode_store.
  rewrite elems_at_app_l by now rewrite length_put.
  apply elems_at_put.
Qed.

Lemma concat_spread_allocated hp hp' args :
  (forall j, j < length hp -> elems_at hp' j = elems_at hp j) ->
  Forall (allocated hp) args ->
  concat_spread hp' args = concat_spread hp args.
Proof.
  intros E Hall. unfold concat_spread.
  induction Hall as [|a args Ha Hall IH]; [done|].
  simpl. rewrite IH. destruct a; try reflexivity.
  now rewrite (E _ Ha).
Qed.

(** C3, refuted as stated: [h(".foo", props)] with [props] being
    [{className: "bar"}] leaves [props] as [{className: "foo bar"}]. *)
Lemma h_writes_to_props :
  exists v hp',
    h ".foo" [VRef 0] bar_store = Ok (v, hp') /\
    bar_store !! 0 = Some (JObj [("className", VStr "bar")]) /\
    hp' !! 0 = Some (JObj [("className", VStr "foo bar")]) /\
    hp' !! 0 <> bar_store !! 0.
Proof.
  eexists _, _. split; [lazy; reflexivity|]. split; [reflexivity|].
  split; [reflexivity|discriminate].
Qed.

(** C3, amended.  [h] has no state of its own, but it writes to an
    explicit properties map, here one whose [className], if it has one, is
    a string: the VNode's [properties] is [props] itself, updated in place
    with what the selector supplies and with the merged [className] (the
    classes of the selector, then the [className] the map had, joined by
    spaces); every other object that was there before the call is
    unchanged, and the VNode and its [children] array are new objects.  A
    second call with the same arguments returns another VNode with the
    same tag and equal children, and the two VNodes have the one [props]
    object as their [properties]. *)
Theorem h_updates_props_in_place selector parts l fs rest hp :
  hp !! l = Some (JObj fs) ->
  is_VNode_like hp (VRef l) = false ->
  className_is_text fs ->
  Forall (allocated hp) rest ->
  matchSelector selector = Some parts ->
  exists v hp',
    h selector (VRef l :: rest) hp = Ok (v, hp') /\
    v = VRef (S (length hp)) /\
    prop hp' v "children" = Some (VRef (length hp)) /\
    prop hp' v "properties" = Some (VRef l) /\
    hp' !! l = Some (JObj (final_fields parts hp fs)) /\
    get_field "className" (final_fields parts hp fs)
    = match class_names parts ++ explicit_class_names fs with
      | [] => None
      | cs => Some (VStr (join_strings " " cs))
      end /\
    (forall j, j < length hp -> j <> l -> hp' !! j = hp !! j) /\
    exists v2 hp2,
      h selector (VRef l :: rest) hp' = Ok (v2, hp2) /\
      v2 <> v /\
      prop hp2 v "properties" = Some (VRef l) /\
      prop hp2 v2 "properties" = Some (VRef l) /\
      prop hp2 v2 "tagName" = prop hp2 v "tagName" /\
      vnode_children hp2 v2 = vnode_children hp2 v.
Proof.
  intros Hl Hnv Htext Hall Hparts.
  pose proof (lookup_lt_Some _ _ _ Hl) as Hlt.
  pose proof (final_fields_className_text parts hp fs Htext) as Hcn.
  set (fs1 := final_fields parts hp fs) in *.
  set (hp1 := vnode_store parts l fs hp rest).
  assert (Hl1 : hp1 !! l = Some (JObj fs1))
    by exact (vnode_store_properties _ _ _ _ _ _ Hl).
  assert (Hlen1 : length hp1 = S (S (length hp)))
    by apply vnode_store_length.
  assert (Hv1 : hp1 !! S (length hp)
                = Some (JObj [("tagName", VStr (final_tagName parts fs));
                              ("properties", VRef l);
                              ("children", VRef (length hp))]))
    by apply vnode_store_vnode.
  assert (Hnv1 : is_VNode_like hp1 (VRef l) = false).
  { revert Hnv. unfold is_VNode_like, has_field.
    rewrite (lookup_fields_at _ _ _ Hl), (lookup_fields_at _ _ _ Hl1).
    simpl. unfold fs1. now rewrite !get_final_fields_other by done. }
  exists (VRef (S (length hp))), hp1.
  split; [exact (h_properties_map _ _ _ _ _ _ Hl Hnv Hparts)|].
  split; [reflexivity|].
  split; [unfold prop, fields_at; now rewrite Hv1|].
  split; [apply vnode_store_prop_properties|].
  split; [exact Hl1|].
  split; [exact Hcn|].
  split; [intros j Hj Hne; now apply vnode_store_old|].
  set (hp2 := vnode_store parts l fs1 hp1 rest).
  exists (VRef (S (length hp1))), hp2.
  split; [exact (h_properties_map _ _ _ _ _ _ Hl1 Hnv1 Hparts)|].
  assert (Hold : hp2 !! S (length hp) = hp1 !! S (length hp))
    by (apply vnode_store_old; lia).
  split; [intros [= E]; lia|].
  split; [unfold prop, fields_at; now rewrite Hold, Hv1|].
  split; [apply vnode_store_prop_properties|].
  split.
  - unfold hp2. rewrite vnode_store_tagName. fold hp2.
    unfold prop, fields_at. rewrite Hold, Hv1. simpl.
    unfold fs1. now rewrite final_tagName_again.
  - unfold hp2. rewrite vnode_store_vnode_children. fold hp2.
    unfold vnode_children, prop, fields_at. rewrite Hold, Hv1. simpl.
    unfold elems_at. unfold hp2. rewrite vnode_store_old by lia.
    unfold hp1 at 2. rewrite vnode_store_children.
    f_equal. unfold children_of. f_equal.
    apply concat_spread_allocated; [|done].
    intros j Hj. now apply elems_at_vnode_store.
Qed.

Lemma h_updates_props_in_place_witness :
  bar_store !! 0 = Some (JObj [("className", VStr "bar")]) /\
  is_VNode_like bar_store (VRef 0) = false /\
  className_is_text [("className", VStr "bar")] /\
  Forall (allocated bar_store) [VStr "text"] /\
  matchSelector "#a.foo" = Some ["#a"; ".foo"] /\
  exists v hp',
    h "#a.foo" [VRef 0; VStr "text"] bar_store = Ok (v, hp') /\
    v = VRef (S (length bar_store)) /\
    prop hp' v "children" = Some (VRef (length bar_store)) /\
    prop hp' v "properties" = Some (VRef 0) /\
    hp' !! 0 = Some (JObj [("className", VStr "foo bar"); ("id", VStr "a")]) /\
    get_field "className" [("className", VStr "foo bar"); ("id", VStr "a")]
    = Some (VStr "foo bar") /\
    (forall j, j < length bar_store -> j <> 0 -> hp' !! j = bar_store !! j) /\
    exists v2 hp2,
      h "#a.foo" [VRef 0; VStr "text"] hp' = Ok (v2, hp2) /\
      v2 <> v /\
      prop hp2 v "properties" = Some (VRef 0) /\
      prop hp2 v2 "properties" = Some (VRef 0) /\
      prop hp2 v2 "tagName" = prop hp2 v "tagName" /\
      vnode_children hp2 v2 = vnode_children hp2 v.
Proof.
  assert (H1 : bar_store !! 0 = Some (JObj [("className", VStr "bar")]))
    by reflexivity.
  assert (H2 : is_VNode_like bar_store (VRef 0) = false) by reflexivity.
  assert (H3 : className_is_text [("className", VStr "bar")]) by exact I.
  assert (H4 : Forall (allocated bar_store) [VStr "text"])
    by (repeat constructor).
  assert (H5 : matchSelector "#a.foo" = Some ["#a"; ".foo"]) by reflexivity.
  exact (conj H1 (conj H2 (conj H3 (conj H4 (conj H5
           (h_updates_props_in_place "#a.foo" _ 0 _ [VStr "text"] _
              H1 H2 H3 H4 H5)))))).
Defined.

(** Two calls on the same [props]: the second call finds the class the
    first one stored, and both VNodes show the result. *)
Lemma className_grows_with_each_call :
  exists v1 hp1 v2 hp2,
    h ".foo" [VRef 0] bar_store = Ok (v1, hp1) /\
    h ".foo" [VRef 0] hp1 = Ok (v2, hp2) /\
    vnode_property hp1 v1 "className" = Some (VStr "foo bar") /\
    vnode_property hp2 v1 "className" = Some (VStr "foo foo bar") /\
    vnode_property hp2 v2 "className" = Some (VStr "foo foo bar").
Proof.
  eexists _, _, _, _. split; [lazy; reflexivity|].
  split; [lazy; reflexivity|]. repeat split; reflexivity.
Qed.

(** ** C9: the factories in [DOM] *)

Ltac by_computation :=
  apply (bool_decide_unpack _); vm_compute; exact I.

Lemma foldl_insert_lookup {A} (f : string -> A) (names : list string)
    (m : gmap string A) (k : string) :
  foldl (fun dom t => <[t := f t]> dom) m names !! k
  = if decide (k ∈ names) then Some (f k) else m !! k.
Proof.
  revert m. induction names as [|t names IH]; intros m; cbn [foldl].
  - rewrite decide_False; [done|]. apply not_elem_of_nil.
  - rewrite IH. destruct (decide (k ∈ names)) as [Hin|Hnin].
    + rewrite decide_True; [done|]. now apply list_elem_of_further.
    + destruct (decide (k = t)) as [->|Hne].
      * rewrite lookup_insert_eq, decide_True; [done|].
        apply list_elem_of_here.
      * rewrite lookup_insert_ne by done.
        rewrite decide_False; [done|].
        intros [->|Hin]%elem_of_cons; done.
Qed.

(** Every SVG name is bound to its SVG factory. *)
Lemma DOM_svg t :
  t ∈ SVG_TAG_NAMES -> DOM !! t = Some (SvgFactory t).
Proof.
  intros Hin. unfold DOM. rewrite foldl_insert_lookup.
  now rewrite decide_True.
Qed.

(** An HTML name is bound to its HTML factory when it is not an SVG name
    as well. *)
Lemma DOM_html t :
  t ∈ HTML_TAG_NAMES -> t ∉ SVG_TAG_NAMES ->
  DOM !! t = Some (HtmlFactory t).
Proof.
  intros Hin Hnin. unfold DOM. rewrite !foldl_insert_lookup.
  now rewrite decide_False, decide_True.
Qed.

Lemma DOM_call_svg t arguments :
  t ∈ SVG_TAG_NAMES -> DOM_call t arguments = h ("svg:" +:+ t) arguments.
Proof. intros Hin. unfold DOM_call. now rewrite DOM_svg. Qed.

Lemma DOM_call_html t arguments :
  t ∈ HTML_TAG_NAMES -> t ∉ SVG_TAG_NAMES ->
  DOM_call t arguments = h t arguments.
Proof. intros Hin Hnin. unfold DOM_call. now rewrite DOM_html. Qed.

(** The five names that are in both lists. *)
Lemma names_in_both_lists :
  filter (fun t => t ∈ SVG_TAG_NAMES) HTML_TAG_NAMES
  = ["font"; "image"; "script"; "style"; "title"].
Proof. vm_compute. reflexivity. Qed.

Lemma factories_test_deep_equal :
  exists node node2 hp t,
    factories_test [] = Ok ((node, node2), hp) /\
    node <> node2 /\
    reify 8 hp node = Some t /\ reify 8 hp node2 = Some t.
Proof.
  eexists _, _, _, _. split; [vm_compute; reflexivity|].
  split; [discriminate|]. split; vm_compute; reflexivity.
Qed.

(** C9, at the tag [font]: it is an HTML tag name, but [DOM.font] is the
    SVG factory, because the loop over the SVG names runs second and
    overwrites the five names that are in both lists.  [DOM.font()] is
    [h("svg:font")], a VNode with tag [font] in the SVG namespace, while
    [h("font")] is a VNode with tag [FONT] and no namespace. *)
Theorem DOM_font_is_not_h_font :
  "font" ∈ HTML_TAG_NAMES /\
  DOM !! "font" = Some (SvgFactory "font") /\
  (exists v hp',
     DOM_call "font" [] [] = Ok (v, hp') /\
     prop hp' v "tagName" = Some (VStr "font") /\
     vnode_property hp' v "xmlns" = Some (VStr SVG_NS)) /\
  (exists v hp',
     h "font" [] [] = Ok (v, hp') /\
     prop hp' v "tagName" = Some (VStr "FONT") /\
     vnode_property hp' v "xmlns" = None).
Proof.
  split; [by_computation|].
  split; [apply DOM_svg; by_computation|].
  split; eexists _, _; (split; [vm_compute; reflexivity|]);
    split; reflexivity.
Qed.

(** ** C1: rendering a VNode *)

(** No VNode of [h] can be rendered: [render] reads [vtree.attributes],
    which a VNode does not have, and then [xmlns] of [undefined]. *)
Lemma render_VNode_raises (this : Renderer) fuel hp v :
  is_VNode hp v ->
  render (N := node) this (S fuel) v hp = Throw TypeError.
Proof.
  intros (n & t & p & c & cs & -> & Hn & _ & _).
  simpl. unfold bind. simpl. unfold fields_at. rewrite Hn. reflexivity.
Qed.

(** What [render] does with a tree that has the fields it reads,
    [nodeName] and [attributes] next to [properties] and [children]: the
    attribute is set under the property's own key, [className]. *)
Lemma render_with_nodeName_and_attributes :
  render (N := node) new_Renderer 2 (VRef 3)
    [JObj [("className", VStr "x")];
     JArr [VStr "text"] [];
     JObj [];
     JObj [("nodeName", VStr "DIV"); ("attributes", VRef 2);
           ("properties", VRef 0); ("children", VRef 1)]]
  = Ok (Element None (VStr "DIV") [("className", VStr "x")]
          [Text (VStr "text")],
        [JObj [("className", VStr "x")];
         JArr [VStr "text"] [];
         JObj [];
         JObj [("nodeName", VStr "DIV"); ("attributes", VRef 2);
               ("properties", VRef 0); ("children", VRef 1)]]).
Proof. vm_compute. reflexivity. Qed.

(** C1, at its own input: [h("div", {className: "x"}, "text")] returns the
    VNode [{tagName: "DIV", properties: {className: "x"}, children:
    ["text"]}], and [render] of it raises a [TypeError] instead of
    returning an element. *)
Theorem render_of_built_VNode_raises (fuel : nat) :
  (exists v hp,
     (let* p := alloc (JObj [("className", VStr "x")]) in
      h "div" [p; VStr "text"]) [] = Ok (v, hp) /\
     reify 3 hp v
     = Some (TObj [("tagName", TStr "DIV");
                   ("properties", TObj [("className", TStr "x")]);
                   ("children", TArr [TStr "text"] [])])) /\
  render_test (S fuel) [] = Throw TypeError.
Proof.
  split; [|reflexivity].
  eexists _, _. split; [vm_compute; reflexivity|reflexivity].
Qed.


(** * Further properties of the builder, the renderer and their caller *)

(** ** The tokens of a selector *)

Lemma id_fold_left parts st :
  id (fold_left next_locals parts st)
  = List.last (map (substr 1) (List.filter (first_is "#") parts)) (id st).
Proof.
  revert st. induction parts as [|part parts IH]; intros st; [done|].
  simpl fold_left. rewrite IH. unfold next_locals. simpl List.filter.
  destruct (first_is "#" part).
  - now rewrite map_cons, last_cons_default.
  - destruct (first_is "." part); [reflexivity|].
    destruct (startsWith part "svg:"); reflexivity.
Qed.

Lemma id_locals_of parts : id (locals_of parts) = selector_id parts.
Proof. unfold locals_of. now rewrite id_fold_left. Qed.

Lemma take_while_all p s : all_chars p s = true -> take_while p s = s.
Proof.
  induction s as [|c r IH]; [done|]. simpl.
  destruct (p c); [|done]. simpl. intros E. now rewrite IH.
Qed.

Lemma drop_while_all p s : all_chars p s = true -> drop_while p s = "".
Proof.
  induction s as [|c r IH]; [done|]. simpl.
  destruct (p c); [|done]. simpl. exact IH.
Qed.

Lemma all_chars_take_while p s : all_chars p (take_while p s) = true.
Proof.
  induction s as [|c r IH]; [done|]. simpl.
  destruct (p c) eqn:E; [|done]. simpl. now rewrite E.
Qed.

(** Every token of a selector is a word token or a fragment token. *)
Lemma scan_token_shapes n s :
  Forall (fun t => word_token t \/ fragment_token t) (scan n s).
Proof.
  revert s. induction n as [|n IH]; intros s; [constructor|].
  destruct s as [|c r]; [constructor|]. simpl.
  destruct (is_word c) eqn:Hw.
  - constructor; [|apply IH]. left. split; [done|].
    simpl. rewrite Hw. apply all_chars_take_while.
  - destruct (is_hash_dot c) eqn:Hh; [|apply IH].
    destruct r as [|d r']; [constructor|].
    destruct (not_hash_dot d) eqn:Hd; [|apply IH].
    constructor; [|apply IH]. right. split; [|split].
    + unfold is_fragment, first_is. unfold is_hash_dot in Hh.
      now rewrite (Ascii.eqb_sym c "#"), (Ascii.eqb_sym c ".") in Hh.
    + simpl. now rewrite Hd.
    + exact (all_chars_take_while not_hash_dot (String d r')).
Qed.

Lemma matchSelector_token_shapes selector parts :
  matchSelector selector = Some parts ->
  Forall (fun t => word_token t \/ fragment_token t) parts.
Proof.
  unfold matchSelector, regex_match, match_all. intros E.
  destruct selector as [|c r]; [injection E as <-; constructor|].
  pose proof (scan_token_shapes (String.length (String c r)) (String c r))
    as H.
  destruct (scan _ _); [discriminate|]. now injection E as <-.
Qed.

Lemma word_token_not_fragment t : word_token t -> is_fragment t = false.
Proof.
  intros [Hne Hw]. destruct t as [|c r]; [done|]. simpl in Hw.
  apply andb_prop in Hw as [Hc _]. unfold is_fragment, first_is.
  destruct (Ascii.eqb c "#") eqn:E1;
    [apply Ascii.eqb_eq in E1; subst; discriminate|].
  destruct (Ascii.eqb c ".") eqn:E2;
    [apply Ascii.eqb_eq in E2; subst; discriminate|]. reflexivity.
Qed.

Lemma last_map_filter {A B} (f : A -> B) (p : A -> bool) (l : list A) d :
  List.last (map f (List.filter p l)) d = d
  \/ exists t, t ∈ l /\ p t = true
       /\ List.last (map f (List.filter p l)) d = f t.
Proof.
  revert d. induction l as [|x l IH]; intros d; [now left|].
  cbn [List.filter]. destruct (p x) eqn:Hp.
  - rewrite map_cons, last_cons_default. right.
    destruct (IH (f x)) as [E|(t & Ht & Hpt & E)].
    + exists x. split; [apply list_elem_of_here|]. now split.
    + exists t. split; [now apply list_elem_of_further|]. now split.
  - destruct (IH d) as [E|(t & Ht & Hpt & E)]; [now left|right].
    exists t. split; [now apply list_elem_of_further|]. now split.
Qed.

(** The class names and the id of a selector are never empty and contain
    neither [#] nor [.]; the id is that of a [#id] token of the
    selector. *)
Theorem selector_names_are_clean selector parts :
  matchSelector selector = Some parts ->
  Forall (fun c => c <> "" /\ all_chars not_hash_dot c = true)
    (class_names parts)
  /\ (selector_id parts = ""
      \/ selector_id parts <> ""
         /\ all_chars not_hash_dot (selector_id parts) = true
         /\ "#" +:+ selector_id parts ∈ parts).
Proof.
  intros E. pose proof (matchSelector_token_shapes _ _ E) as Hall. clear E.
  split.
  - unfold class_names. induction Hall as [|t parts Ht Hall IH]; [constructor|].
    cbn [List.filter]. destruct (first_is "." t) eqn:Hd; [|exact IH].
    rewrite map_cons. constructor; [|exact IH].
    destruct Ht as [Hw|(_ & Hne & Hc)]; [|done].
    pose proof (word_token_not_fragment _ Hw) as Hf.
    unfold is_fragment in Hf. rewrite Hd, orb_true_r in Hf. discriminate.
  - unfold selector_id.
    destruct (last_map_filter (substr 1) (first_is "#") parts "")
      as [E|(t & Ht & Hh & E)]; [now left|right]. rewrite E.
    rewrite Forall_forall in Hall. destruct (Hall t Ht) as [Hw|(_ & Hne & Hc)].
    + pose proof (word_token_not_fragment _ Hw) as Hf.
      unfold is_fragment in Hf. rewrite Hh in Hf. discriminate.
    + split; [exact Hne|]. split; [exact Hc|].
      destruct t as [|c r]; [discriminate|]. simpl in Hh.
      apply Ascii.eqb_eq in Hh. now subst.
Qed.

(** Of the tokens of a selector, it is the bare token [svg] and no other
    that makes the loop assign [properties.xmlns]. *)
Lemma sets_xmlns_svg selector parts :
  matchSelector selector = Some parts ->
  existsb sets_xmlns parts = bool_decide ("svg" ∈ parts).
Proof.
  intros E. pose proof (matchSelector_tokens _ _ E) as Hall. clear E.
  induction Hall as [|t parts Ht Hall IH].
  - reflexivity.
  - cbn [existsb]. rewrite IH.
    assert (Et : sets_xmlns t = String.eqb t "svg").
    { unfold sets_xmlns. destruct Ht as [Hf|Hs].
      - unfold is_fragment in Hf.
        destruct (String.eqb t "svg") eqn:Es.
        + apply String.eqb_eq in Es. subst. discriminate.
        + destruct (first_is "#" t), (first_is "." t); try discriminate;
            reflexivity.
      - rewrite Hs. destruct (String.eqb t "svg") eqn:Es.
        + apply String.eqb_eq in Es. now subst.
        + now rewrite !andb_false_r. }
    rewrite Et. destruct (String.eqb t "svg") eqn:Es.
    + apply String.eqb_eq in Es. subst.
      symmetry. apply bool_decide_eq_true. apply list_elem_of_here.
    + apply String.eqb_neq in Es. simpl.
      apply bool_decide_ext. split.
      * intros H. now apply list_elem_of_further.
      * intros [H|H]%elem_of_cons; [congruence|done].
Qed.

Lemma put_snoc hp fs fs' :
  put (length hp) fs' (hp ++ [JObj fs]) = hp ++ [JObj fs'].
Proof.
  unfold put. rewrite alter_app_r_alt by lia.
  now rewrite Nat.sub_diag.
Qed.

Lemma get_xmlns_selector_properties parts :
  get_field "xmlns" (selector_properties parts)
  = if existsb sets_xmlns parts then Some (VStr SVG_NS) else None.
Proof.
  unfold selector_properties.
  destruct (existsb sets_xmlns parts); [reflexivity|].
  destruct (String.eqb _ ""); destruct (class_names parts); reflexivity.
Qed.

(** ** Calls with a selector alone *)

(** [h(S)] for a selector with tokens (or empty): the result is a new VNode
    whose [properties] are a new object holding, in this order, [xmlns] if
    [svg] is a token, [id] if the selector names one, and [className] if it
    names classes; the tag is the last bare token, upper-cased unless [svg]
    is a token, and there are no children.  Nothing else in the store
    changes. *)
Lemma selector_only_result selector parts hp :
  matchSelector selector = Some parts ->
  h selector [] hp
  = Ok (VRef (S (S (length hp))),
        hp ++ [JObj ((if bool_decide ("svg" ∈ parts)
                      then [("xmlns", VStr SVG_NS)] else [])
                     ++ (if String.eqb (selector_id parts) "" then []
                         else [("id", VStr (selector_id parts))])
                     ++ (match class_names parts with
                         | [] => []
                         | cs => [("className", VStr (join_strings " " cs))]
                         end));
               JArr [] [];
               JObj [("tagName",
                      VStr (if bool_decide ("svg" ∈ parts)
                            then selector_tagName parts
                            else toUpperCase (selector_tagName parts)));
                     ("properties", VRef (length hp));
                     ("children", VRef (S (length hp)))]]).
Proof.
  intros E.
  change (h selector [] hp) with (createVNode selector VUndefined [] hp).
  rewrite (createVNode_new selector parts VUndefined [] hp E eq_refl).
  unfold vnode_store.
  rewrite put_snoc, final_fields_nil, length_app, Nat.add_1_r.
  rewrite (final_tagName_spec parts (hp ++ [JObj []])), final_fields_nil.
  rewrite get_xmlns_selector_properties.
  unfold selector_properties. rewrite id_locals_of, (sets_xmlns_svg _ _ E).
  rewrite <- app_assoc.
  destruct (bool_decide ("svg" ∈ parts)); reflexivity.
Qed.

(** [h(S)], as a theorem of its own: see [selector_only_result] for what
    the store holds.  For a selector with tokens (or empty) the call
    returns a new VNode whose [properties] hold [xmlns] if [svg] is a
    token, [id] if the selector names one and [className] if it names
    classes, in this order and nothing else; the tag is the last bare
    token, upper-cased unless [svg] is a token; there are no children, and
    the old store is untouched. *)
Theorem h_selector_only selector parts hp :
  matchSelector selector = Some parts ->
  h selector [] hp
  = Ok (VRef (S (S (length hp))),
        hp ++ [JObj ((if bool_decide ("svg" ∈ parts)
                      then [("xmlns", VStr SVG_NS)] else [])
                     ++ (if String.eqb (selector_id parts) "" then []
                         else [("id", VStr (selector_id parts))])
                     ++ (match class_names parts with
                         | [] => []
                         | cs => [("className", VStr (join_strings " " cs))]
                         end));
               JArr [] [];
               JObj [("tagName",
                      VStr (if bool_decide ("svg" ∈ parts)
                            then selector_tagName parts
                            else toUpperCase (selector_tagName parts)));
                     ("properties", VRef (length hp));
                     ("children", VRef (S (length hp)))]]).
Proof. apply selector_only_result. Qed.

Lemma h_selector_only_witness :
  matchSelector "svg#icon.big.red" = Some ["svg"; "#icon"; ".big"; ".red"] /\
  h "svg#icon.big.red" [] []
  = Ok (VRef 2,
        [JObj [("xmlns", VStr SVG_NS); ("id", VStr "icon");
               ("className", VStr "big red")];
         JArr [] [];
         JObj [("tagName", VStr "svg"); ("properties", VRef 0);
               ("children", VRef 1)]]).
Proof.
  assert (H1 : matchSelector "svg#icon.big.red"
               = Some ["svg"; "#icon"; ".big"; ".red"]) by reflexivity.
  exact (conj H1 (h_selector_only "svg#icon.big.red" _ [] H1)).
Defined.

Lemma matchSelector_word w :
  w <> "" -> all_chars is_word w = true -> matchSelector w = Some [w].
Proof.
  intros Hne Hw. destruct w as [|c r]; [done|].
  unfold matchSelector, regex_match, match_all.
  cbn [String.length scan]. simpl in Hw.
  apply andb_prop in Hw as [Hc Hr]. rewrite Hc.
  assert (Ht : take_while is_word (String c r) = String c r)
    by (apply take_while_all; simpl; now rewrite Hc).
  assert (Hd : drop_while is_word (String c r) = "")
    by (apply drop_while_all; simpl; now rewrite Hc).
  rewrite Ht, Hd. now destruct (String.length r).
Qed.

(** [h(tag)] for a tag made of word characters, other than [svg]: the tag
    upper-cased, no properties, no children. *)
Lemma word_selector_result w hp :
  w <> "" -> all_chars is_word w = true -> w <> "svg" ->
  h w [] hp
  = Ok (VRef (S (S (length hp))),
        hp ++ [JObj [];
               JArr [] [];
               JObj [("tagName", VStr (toUpperCase w));
                     ("properties", VRef (length hp));
                     ("children", VRef (S (length hp)))]]).
Proof.
  intros Hne Hw Hsvg.
  rewrite (selector_only_result w [w] hp (matchSelector_word w Hne Hw)).
  assert (Hf : is_fragment w = false)
    by (apply word_token_not_fragment; now split).
  unfold is_fragment in Hf. apply orb_false_elim in Hf as [Hh Hd].
  assert (Hs : startsWith w "svg:" = false).
  { apply word_token_no_svg_prefix. now apply take_while_all. }
  rewrite bool_decide_eq_false_2
    by (intros [H|H]%elem_of_cons; [congruence|now apply elem_of_nil in H]).
  unfold selector_id, class_names, selector_tagName, is_fragment, tag_of.
  cbn [List.filter]. rewrite Hh, Hd. cbn [orb negb map List.last].
  rewrite Hs. reflexivity.
Qed.

(** [h(tag)] for a tag made of word characters, other than [svg], in any
    store: the tag upper-cased, no properties, no children. *)
Theorem h_tag_only w hp :
  w <> "" -> all_chars is_word w = true -> w <> "svg" ->
  h w [] hp
  = Ok (VRef (S (S (length hp))),
        hp ++ [JObj [];
               JArr [] [];
               JObj [("tagName", VStr (toUpperCase w));
                     ("properties", VRef (length hp));
                     ("children", VRef (S (length hp)))]]).
Proof. apply word_selector_result. Qed.

Lemma h_tag_only_witness :
  "h1" <> "" /\ all_chars is_word "h1" = true /\ "h1" <> "svg" /\
  h "h1" [] []
  = Ok (VRef 2,
        [JObj []; JArr [] [];
         JObj [("tagName", VStr "H1"); ("properties", VRef 0);
               ("children", VRef 1)]]).
Proof.
  assert (H1 : "h1" <> "") by discriminate.
  assert (H2 : all_chars is_word "h1" = true) by reflexivity.
  assert (H3 : "h1" <> "svg") by discriminate.
  exact (conj H1 (conj H2 (conj H3 (h_tag_only "h1" [] H1 H2 H3)))).
Defined.

(** ** Calls with a properties map *)

Lemma get_final_fields_before k parts hp fs :
  k <> "className" -> k <> "class" ->
  get_field k (final_fields parts hp fs)
  = get_field k (fields_before_class parts fs).
Proof.
  intros Hcn Hc. unfold final_fields, fields_after_class.
  destruct (0 <? _)%nat; [|reflexivity].
  rewrite get_set_field_ne by done.
  destruct (has_field "class" _); [|reflexivity].
  now rewrite get_delete_field_ne, get_set_field_ne.
Qed.

Lemma get_id_before_class parts fs :
  get_field "id" (fields_before_class parts fs)
  = match get_field "id" fs with
    | Some x => Some x
    | None => if String.eqb (selector_id parts) "" then None
              else Some (VStr (selector_id parts))
    end.
Proof.
  unfold fields_before_class, fields_after_id. rewrite id_locals_of.
  assert (Hg : get_field "id" (fields_after_parts parts fs)
               = get_field "id" fs).
  { unfold fields_after_parts. destruct (existsb sets_xmlns parts);
      [now rewrite get_set_field_ne|reflexivity]. }
  unfold has_field. rewrite Hg. simpl truthy.
  destruct (get_field "id" fs) as [x|] eqn:Ei.
  - now rewrite andb_false_r, Hg.
  - destruct (String.eqb (selector_id parts) ""); simpl.
    + exact Hg.
    + apply get_set_field_eq.
Qed.







(** [class] is only looked at when there is a class to store: with a
    selector that names no class and a map without [className], a [class]
    key stays as it is and no [className] appears. *)
Theorem class_stays_without_classes selector parts l fs rest hp :
  hp !! l = Some (JObj fs) ->
  is_VNode_like hp (VRef l) = false ->
  matchSelector selector = Some parts ->
  class_names parts = [] ->
  get_field "className" fs = None ->
  exists v hp',
    h selector (VRef l :: rest) hp = Ok (v, hp') /\
    vnode_property hp' v "class" = get_field "class" fs /\
    vnode_property hp' v "className" = None.
Proof.
  intros Hl Hnv Hparts Hcls Hcn.
  eexists _, _. split; [exact (h_properties_map _ _ _ _ _ _ Hl Hnv Hparts)|].
  rewrite !(vnode_store_property _ _ _ _ _ _ Hl).
  unfold final_fields, fields_after_class. rewrite pushed_classes_spec.
  unfold explicit_className. rewrite Hcls, Hcn. simpl.
  rewrite !get_before_class by done. now split.
Qed.

Lemma class_stays_without_classes_witness :
  [JObj [("class", VStr "a")]] !! 0 = Some (JObj [("class", VStr "a")]) /\
  is_VNode_like [JObj [("class", VStr "a")]] (VRef 0) = false /\
  matchSelector "div" = Some ["div"] /\
  class_names ["div"] = [] /\
  get_field "className" [("class", VStr "a")] = None /\
  exists v hp',
    h "div" [VRef 0] [JObj [("class", VStr "a")]] = Ok (v, hp') /\
    vnode_property hp' v "class" = get_field "class" [("class", VStr "a")] /\
    vnode_property hp' v "className" = None.
Proof.
  assert (H1 : [JObj [("class", VStr "a")]] !! 0
               = Some (JObj [("class", VStr "a")])) by reflexivity.
  assert (H2 : is_VNode_like [JObj [("class", VStr "a")]] (VRef 0) = false)
    by reflexivity.
  assert (H3 : matchSelector "div" = Some ["div"]) by reflexivity.
  assert (H4 : class_names ["div"] = []) by reflexivity.
  assert (H5 : get_field "className" [("class", VStr "a")] = None)
    by reflexivity.
  exact (conj H1 (conj H2 (conj H3 (conj H4 (conj H5
           (class_stays_without_classes "div" _ 0 _ [] _
              H1 H2 H3 H4 H5)))))).
Defined.

(** ** How the overloads relate *)

(** Children in an array or one by one: when the first child is a VNode
    (or there is no child at all), [h(selector, [c1, ..., cn], ...rest)] is
    [h(selector, c1, ..., cn, ...rest)], result and store. *)
Theorem h_array_of_children selector a es afs rest hp :
  hp !! a = Some (JArr es afs) ->
  is_VNode_like hp (VRef a) = false ->
  match es ++ rest with
  | [] => True
  | c :: _ => is_VNode_like hp c = true
  end ->
  h selector (VRef a :: rest) hp = h selector (es ++ rest) hp.
Proof.
  intros Ha Hnv Hhead. unfold h at 1. cbn [hd tl].
  rewrite (bind_Ok _ _ _ _ _ (isVNode_ref a hp)), Hnv.
  unfold bind at 1, get_heap. unfold elems_at. rewrite Ha.
  destruct (es ++ rest) as [|c cs] eqn:E.
  - unfold h. cbn [hd tl]. unfold bind, alloc.
    now rewrite (createVNode_falsy selector VUndefined).
  - destruct c as [| |b|n|s|l]; try discriminate.
    unfold h. cbn [hd tl].
    now rewrite (bind_Ok _ _ _ _ _ (isVNode_ref l hp)), Hhead.
Qed.

(** The store after [h("span")] followed by the array [[span]]. *)
Lemma h_array_of_children_witness :
  (span_store ++ [JArr [VRef 2] []]) !! 3 = Some (JArr [VRef 2] []) /\
  is_VNode_like (span_store ++ [JArr [VRef 2] []]) (VRef 3) = false /\
  match [VRef 2] ++ [VStr "text"] with
  | [] => True
  | c :: _ => is_VNode_like (span_store ++ [JArr [VRef 2] []]) c = true
  end /\
  h "div" [VRef 3; VStr "text"] (span_store ++ [JArr [VRef 2] []])
  = h "div" ([VRef 2] ++ [VStr "text"]) (span_store ++ [JArr [VRef 2] []]).
Proof.
  assert (H1 : (span_store ++ [JArr [VRef 2] []]) !! 3
               = Some (JArr [VRef 2] [])) by reflexivity.
  assert (H2 : is_VNode_like (span_store ++ [JArr [VRef 2] []]) (VRef 3)
               = false) by reflexivity.
  assert (H3 : match [VRef 2] ++ [VStr "text"] with
               | [] => True
               | c :: _ =>
                   is_VNode_like (span_store ++ [JArr [VRef 2] []]) c = true
               end) by reflexivity.
  exact (conj H1 (conj H2 (conj H3
           (h_array_of_children "div" 3 _ _ [VStr "text"] _ H1 H2 H3)))).
Defined.

(** A first argument that starts with [.] or [#] extends the selector:
    [h(selector, fragment, ...rest)] is [h(selector + fragment, ...rest)]
    when [rest] is empty or starts with [undefined], [null] or an object
    that is not an array. *)
Theorem h_fragment_extends_selector selector f rest hp :
  isClassOrId f = true ->
  match hd VUndefined rest with
  | VUndefined | VNull => True
  | VRef r => elems_at hp r = None
  | _ => False
  end ->
  h selector (VStr f :: rest) hp = h (selector +:+ f) rest hp.
Proof.
  intros Hf Hr0. unfold h. cbn [hd tl]. rewrite Hf.
  destruct (hd VUndefined rest) as [| |b|n|s|r] eqn:E; try done.
  cbn [truthy]. rewrite !(bind_Ok _ _ _ _ _ (isVNode_ref r hp)).
  destruct rest as [|x rest']; [discriminate|]. simpl in E. subst x.
  destruct (is_VNode_like hp (VRef r)); [reflexivity|].
  unfold bind at 1, get_heap. now rewrite Hr0.
Qed.

Lemma h_fragment_extends_selector_witness :
  isClassOrId "#foo.bar" = true /\
  match hd VUndefined [VRef 0; VRef 1] with
  | VUndefined | VNull => True
  | VRef r => elems_at (baz_store ++ span_store) r = None
  | _ => False
  end /\
  h "div" [VStr "#foo.bar"; VRef 0; VRef 1] (baz_store ++ span_store)
  = h ("div" +:+ "#foo.bar") [VRef 0; VRef 1] (baz_store ++ span_store).
Proof.
  assert (H1 : isClassOrId "#foo.bar" = true) by reflexivity.
  assert (H2 : match hd VUndefined [VRef 0; VRef 1] with
               | VUndefined | VNull => True
               | VRef r => elems_at (baz_store ++ span_store) r = None
               | _ => False
               end) by reflexivity.
  exact (conj H1 (conj H2
           (h_fragment_extends_selector "div" "#foo.bar" [VRef 0; VRef 1]
              (baz_store ++ span_store) H1 H2))).
Defined.



(** ** What a call leaves alone *)

Lemma o_properties_resolve hp selector selector' arguments :
  o_properties (resolve hp selector arguments)
  = o_properties (resolve hp selector' arguments).
Proof.
  unfold resolve.
  destruct (hd VUndefined arguments) as [| |b|n|f|l]; try reflexivity.
  - destruct (isClassOrId f); [|reflexivity].
    destruct (is_VNode_like hp _); reflexivity.
  - destruct (is_VNode_like hp _); [reflexivity|].
    destruct (elems_at hp l); reflexivity.
Qed.

(** Whatever the shape of the call, [h] returns a new object and writes to
    no object that was there before, except the one it takes as
    [properties]; when it takes none, the old store is a prefix of the new
    one. *)
Theorem h_writes_at_most_properties selector arguments hp v hp' :
  Forall (allocated hp) arguments ->
  h selector arguments hp = Ok (v, hp') ->
  (exists n, v = VRef n /\ length hp <= n < length hp') /\
  match properties_target hp arguments with
  | Some l => forall j, j < length hp -> j <> l -> hp' !! j = hp !! j
  | None => exists new, hp' = hp ++ new
  end.
Proof.
  intros Hall E.
  destruct (h_Ok_inv _ _ _ _ _ Hall E)
    as (parts & hp0 & l & _ & _ & Hplace & _ & -> & ->).
  assert (Hnew : hp0 = hp ++ [JObj []] /\ l = length hp ->
    exists new, vnode_store parts l (fields_at hp0 l) hp0
                  (o_children (resolve hp selector arguments)) = hp ++ new).
  { intros [-> ->]. unfold vnode_store. rewrite put_snoc, <- app_assoc.
    eauto. }
  assert (Hlen : length hp <= length hp0).
  { destruct (o_properties _) as [|p]; simpl in Hplace.
    - injection Hplace as <- <-. rewrite length_app. lia.
    - destruct (truthy p).
      + destruct p; try discriminate. now injection Hplace as <- <-.
      + injection Hplace as <- <-. rewrite length_app. lia. }
  split.
  - exists (S (length hp0)). split; [reflexivity|].
    rewrite vnode_store_length. lia.
  - unfold properties_target.
    rewrite (o_properties_resolve hp "" selector).
    destruct (o_properties _) as [|p]; simpl in Hplace.
    + injection Hplace as <- <-. now apply Hnew.
    + destruct (truthy p) eqn:Hp.
      * destruct p; try discriminate. injection Hplace as <- <-.
        intros j Hj Hne. now apply vnode_store_old.
      * injection Hplace as <- <-.
        destruct p; try discriminate; now apply Hnew.
Qed.

Lemma h_writes_at_most_properties_witness :
  Forall (allocated span_store) [VRef 2; VNull; VStr "text"] /\
  h "div.a" [VRef 2; VNull; VStr "text"] span_store
  = Ok (VRef 5,
        span_store
        ++ [JObj [("className", VStr "a")];
            JArr [VRef 2; VStr "text"] [];
            JObj [("tagName", VStr "DIV"); ("properties", VRef 3);
                  ("children", VRef 4)]]) /\
  (exists n, VRef 5 = VRef n
     /\ length span_store <= n
        < length (span_store
                  ++ [JObj [("className", VStr "a")];
                      JArr [VRef 2; VStr "text"] [];
                      JObj [("tagName", VStr "DIV"); ("properties", VRef 3);
                            ("children", VRef 4)]])) /\
  match properties_target span_store [VRef 2; VNull; VStr "text"] with
  | Some l =>
      forall j, j < length span_store -> j <> l ->
        (span_store
         ++ [JObj [("className", VStr "a")];
             JArr [VRef 2; VStr "text"] [];
             JObj [("tagName", VStr "DIV"); ("properties", VRef 3);
                   ("children", VRef 4)]]) !! j = span_store !! j
  | None =>
      exists new,
        span_store
        ++ [JObj [("className", VStr "a")];
            JArr [VRef 2; VStr "text"] [];
            JObj [("tagName", VStr "DIV"); ("properties", VRef 3);
                  ("children", VRef 4)]] = span_store ++ new
  end.
Proof.
  assert (H1 : Forall (allocated span_store) [VRef 2; VNull; VStr "text"])
    by (repeat constructor).
  assert (H2 : h "div.a" [VRef 2; VNull; VStr "text"] span_store
               = Ok (VRef 5,
                     span_store
                     ++ [JObj [("className", VStr "a")];
                         JArr [VRef 2; VStr "text"] [];
                         JObj [("tagName", VStr "DIV");
                               ("properties", VRef 3);
                               ("children", VRef 4)]]))
    by reflexivity.
  exact (conj H1 (conj H2
           (h_writes_at_most_properties "div.a" _ _ _ _ H1 H2))).
Defined.

(** ** The factories of [DOM] *)

(** [DOM] has the names of the two lists and no other. *)
Theorem DOM_names t :
  is_Some (DOM !! t) <-> t ∈ HTML_TAG_NAMES \/ t ∈ SVG_TAG_NAMES.
Proof.
  unfold DOM. rewrite !foldl_insert_lookup.
  destruct (decide (t ∈ SVG_TAG_NAMES)) as [Hs|Hs].
  - split; eauto.
  - destruct (decide (t ∈ HTML_TAG_NAMES)) as [Hh|Hh].
    + split; eauto.
    + rewrite lookup_empty. split; [intros [? [=]]|]. intros [?|?]; done.
Qed.

Lemma matchSelector_svg_factories :
  forallb (fun t => bool_decide (matchSelector ("svg:" +:+ t)
                                 = Some ["svg"; t]))
    SVG_TAG_NAMES = true.
Proof. vm_compute. reflexivity. Qed.

(** Every SVG factory, called without arguments, returns a VNode in the
    SVG namespace whose tag is the name as it is written in the list, its
    case kept ([clipPath], [feBlend], ...). *)
Theorem svg_factory_keeps_case t hp :
  t ∈ SVG_TAG_NAMES ->
  DOM_call t [] hp
  = Ok (VRef (S (S (length hp))),
        hp ++ [JObj [("xmlns", VStr SVG_NS)];
               JArr [] [];
               JObj [("tagName", VStr t);
                     ("properties", VRef (length hp));
                     ("children", VRef (S (length hp)))]]).
Proof.
  intros Hin. rewrite (DOM_call_svg _ _ Hin).
  pose proof matchSelector_svg_factories as Hall.
  rewrite forallb_forall in Hall.
  pose proof (Hall t (proj1 (list_elem_of_In _ _) Hin)) as Ht.
  apply bool_decide_eq_true in Ht.
  rewrite (selector_only_result _ _ hp Ht).
  assert (Hfrag : is_fragment t = false /\ startsWith t "svg:" = false).
  { pose proof (matchSelector_token_shapes _ _ Ht) as Hs.
    apply Forall_cons in Hs as [_ Hs]. apply Forall_cons in Hs as [Hs _].
    destruct Hs as [Hw|[Hf _]].
    - split; [now apply word_token_not_fragment|].
      apply word_token_no_svg_prefix, take_while_all, Hw.
    - pose proof (matchSelector_tokens _ _ Ht) as Hk.
      apply Forall_cons in Hk as [_ Hk]. apply Forall_cons in Hk as [Hk _].
      exfalso. clear Hk.
      assert (Hb : forallb (fun t => negb (is_fragment t)) SVG_TAG_NAMES
                   = true) by (vm_compute; reflexivity).
      rewrite forallb_forall in Hb.
      specialize (Hb t (proj1 (list_elem_of_In _ _) Hin)).
      now rewrite Hf in Hb. }
  destruct Hfrag as [Hf Hs]. unfold is_fragment in Hf.
  apply orb_false_elim in Hf as [Hh Hd].
  rewrite bool_decide_eq_true_2 by apply list_elem_of_here.
  unfold selector_id, class_names, selector_tagName, is_fragment, tag_of.
  cbn [List.filter first_is]. cbn [Ascii.eqb List.filter]. rewrite Hh, Hd.
  cbn. rewrite Hs. reflexivity.
Qed.

Lemma svg_factory_keeps_case_witness :
  "clipPath" ∈ SVG_TAG_NAMES /\
  DOM_call "clipPath" [] []
  = Ok (VRef 2,
        [JObj [("xmlns", VStr SVG_NS)];
         JArr [] [];
         JObj [("tagName", VStr "clipPath"); ("properties", VRef 0);
               ("children", VRef 1)]]).
Proof.
  assert (H1 : "clipPath" ∈ SVG_TAG_NAMES) by by_computation.
  exact (conj H1 (svg_factory_keeps_case "clipPath" [] H1)).
Defined.

Lemma html_names_are_words :
  forallb (fun t => negb (String.eqb t "") && all_chars is_word t)
    HTML_TAG_NAMES = true.
Proof. vm_compute. reflexivity. Qed.

(** Every HTML factory whose name is not an SVG name as well, [svg] apart,
    returns, called without arguments, a VNode with the name in upper case,
    no properties and no children. *)
Theorem html_factory_upper_case t hp :
  t ∈ HTML_TAG_NAMES -> t ∉ SVG_TAG_NAMES -> t <> "svg" ->
  DOM_call t [] hp
  = Ok (VRef (S (S (length hp))),
        hp ++ [JObj [];
               JArr [] [];
               JObj [("tagName", VStr (toUpperCase t));
                     ("properties", VRef (length hp));
                     ("children", VRef (S (length hp)))]]).
Proof.
  intros Hin Hnin Hsvg. rewrite (DOM_call_html _ _ Hin Hnin).
  pose proof html_names_are_words as Hall. rewrite forallb_forall in Hall.
  specialize (Hall t (proj1 (list_elem_of_In _ _) Hin)).
  apply andb_prop in Hall as [Hne Hw].
  apply word_selector_result; [|done..].
  intros ->. discriminate.
Qed.

Lemma html_factory_upper_case_witness :
  "span" ∈ HTML_TAG_NAMES /\ ("span" ∉ SVG_TAG_NAMES) /\ "span" <> "svg" /\
  DOM_call "span" [] []
  = Ok (VRef 2,
        [JObj []; JArr [] [];
         JObj [("tagName", VStr "SPAN"); ("properties", VRef 0);
               ("children", VRef 1)]]).
Proof.
  assert (H1 : "span" ∈ HTML_TAG_NAMES) by by_computation.
  assert (H2 : "span" ∉ SVG_TAG_NAMES) by by_computation.
  assert (H3 : "span" <> "svg") by discriminate.
  exact (conj H1 (conj H2 (conj H3
           (html_factory_upper_case "span" [] H1 H2 H3)))).
Defined.

(** The factory of an SVG name forwards to [h] with the prefix [svg:],
    whatever the arguments. *)
Theorem svg_factory_forwards t arguments :
  t ∈ SVG_TAG_NAMES ->
  DOM_call t arguments = h ("svg:" +:+ t) arguments.
Proof. apply DOM_call_svg. Qed.

Lemma svg_factory_forwards_witness :
  "title" ∈ SVG_TAG_NAMES /\
  DOM_call "title" [VStr "text"] = h ("svg:" +:+ "title") [VStr "text"].
Proof.
  assert (H1 : "title" ∈ SVG_TAG_NAMES) by by_computation.
  exact (conj H1 (svg_factory_forwards "title" [VStr "text"] H1)).
Defined.

(** The factory of an HTML name that is not an SVG name as well forwards
    to [h] with the name, whatever the arguments. *)
Theorem html_factory_forwards t arguments :
  t ∈ HTML_TAG_NAMES -> t ∉ SVG_TAG_NAMES ->
  DOM_call t arguments = h t arguments.
Proof. apply DOM_call_html. Qed.

Lemma html_factory_forwards_witness :
  "div" ∈ HTML_TAG_NAMES /\ ("div" ∉ SVG_TAG_NAMES) /\
  DOM_call "div" [VStr "#foo.bar"] = h "div" [VStr "#foo.bar"].
Proof.
  assert (H1 : "div" ∈ HTML_TAG_NAMES) by by_computation.
  assert (H2 : "div" ∉ SVG_TAG_NAMES) by by_computation.
  exact (conj H1 (conj H2
           (html_factory_forwards "div" [VStr "#foo.bar"] H1 H2))).
Defined.

(** ** The renderer *)

Lemma reads_only_ret {A} (a : A) : reads_only (ret a).
Proof. intros hp a' hp' [= <- <-]. reflexivity. Qed.

Lemma reads_only_throw {A} e : reads_only (throw (A := A) e).
Proof. intros hp a hp' [=]. Qed.

Lemma reads_only_bind {A B} (m : M A) (k : A -> M B) :
  reads_only m -> (forall a, reads_only (k a)) -> reads_only (bind m k).
Proof.
  intros Hm Hk hp b hp' E. unfold bind in E.
  destruct (m hp) as [[a hp1]|] eqn:E1; [|discriminate].
  apply Hm in E1 as ->. now apply Hk in E.
Qed.

Lemma reads_only_get_heap : reads_only get_heap.
Proof. intros hp a hp' [= <- <-]. reflexivity. Qed.

Lemma reads_only_js_get v k : reads_only (js_get v k).
Proof.
  intros hp x hp'. destruct v; simpl; unfold throw, ret; congruence.
Qed.

Lemma reads_only_own_entries a : reads_only (own_entries a).
Proof.
  intros hp es hp'.
  destruct a as [| |b|n|s|l]; simpl; unfold throw, ret; try congruence.
  destruct (hp !! l) as [[?|??]|]; congruence.
Qed.

Lemma reads_only_foldM {A B} (f : A -> B -> M A) (l : list B) a :
  (forall a x, reads_only (f a x)) -> reads_only (foldM f l a).
Proof.
  intros Hf. revert a. induction l as [|x l IH]; intros a.
  - apply reads_only_ret.
  - simpl. apply reads_only_bind; auto.
Qed.

Lemma reads_only_render (this : Renderer) fuel vtree :
  reads_only (render (N := node) this fuel vtree).
Proof.
  revert vtree. induction fuel as [|fuel IH]; intros vtree;
    [apply reads_only_throw|].
  assert (Hcopy : forall (n : node) kv, reads_only (copy_attribute this n kv)).
  { intros n [k x]. simpl. destruct (String.eqb k "xmlns");
      [apply reads_only_ret|].
    apply reads_only_bind; [apply reads_only_get_heap|].
    intros hp. apply reads_only_ret. }
  destruct vtree; cbn [render]; try apply reads_only_ret;
    (apply reads_only_bind; [apply reads_only_js_get|intros nodeName];
     apply reads_only_bind; [apply reads_only_js_get|intros attrs];
     apply reads_only_bind; [apply reads_only_js_get|intros ns];
     apply reads_only_bind;
       [destruct (truthy ns); [|apply reads_only_ret];
        apply reads_only_bind; [apply reads_only_js_get|intros props];
        apply reads_only_bind; [apply reads_only_js_get|intros x];
        apply reads_only_ret|intros n0];
     apply reads_only_bind; [apply reads_only_js_get|intros a];
     apply reads_only_bind; [apply reads_only_own_entries|intros entries];
     apply reads_only_bind; [now apply reads_only_foldM|intros n1];
     apply reads_only_bind; [apply reads_only_js_get|intros children];
     apply reads_only_bind;
       [destruct (truthy children); [|apply reads_only_ret];
        destruct children; try apply reads_only_throw;
        apply reads_only_bind; [apply reads_only_get_heap|intros hp0];
        destruct (elems_at hp0 _);
          [apply reads_only_ret|apply reads_only_throw]
       |intros cs];
     apply reads_only_foldM; intros n2 c;
     apply reads_only_bind; [apply IH|intros d; apply reads_only_ret]).
Qed.

(** [render] reads the tree and never writes to the store: when it
    returns, the store is the one it started from. *)
Theorem render_leaves_store (this : Renderer) fuel vtree hp (n : node) hp' :
  render this fuel vtree hp = Ok (n, hp') -> hp' = hp.
Proof. apply reads_only_render. Qed.

(** [render] needs [vtree.attributes]: on everything that is not a string
    and has no [attributes] object, so on [undefined], [null], a number, a
    boolean and every object without that field, it raises a [TypeError]
    before it creates a node. *)
Theorem render_requires_attributes (this : Renderer) fuel vtree hp :
  (forall s, vtree <> VStr s) ->
  not_nullish (default VUndefined (prop hp vtree "attributes")) = false ->
  render (N := node) this (S fuel) vtree hp = Throw TypeError.
Proof.
  intros Hs Ha. destruct vtree as [| |b|n|s|l]; try reflexivity.
  - now destruct (Hs s).
  - simpl in Ha. simpl. unfold bind. simpl.
    destruct (default VUndefined (get_field "attributes" (fields_at hp l)));
      try discriminate; reflexivity.
Qed.

Lemma render_requires_attributes_witness :
  (forall s, VNum 0 <> VStr s) /\
  not_nullish (default VUndefined (prop [] (VNum 0) "attributes")) = false /\
  render (N := node) new_Renderer 1 (VNum 0) [] = Throw TypeError.
Proof.
  assert (H1 : forall s, VNum 0 <> VStr s) by discriminate.
  assert (H2 : not_nullish (default VUndefined
                              (prop [] (VNum 0) "attributes")) = false)
    by reflexivity.
  exact (conj H1 (conj H2
           (render_requires_attributes new_Renderer 0 (VNum 0) [] H1 H2))).
Defined.

Lemma render_leaves_store_witness :
  render (N := node) new_Renderer 2 (VRef 3)
    [JObj [("className", VStr "x")];
     JArr [VStr "text"] [];
     JObj [];
     JObj [("nodeName", VStr "DIV"); ("attributes", VRef 2);
           ("properties", VRef 0); ("children", VRef 1)]]
  = Ok (Element None (VStr "DIV") [("className", VStr "x")]
          [Text (VStr "text")],
        [JObj [("className", VStr "x")];
         JArr [VStr "text"] [];
         JObj [];
         JObj [("nodeName", VStr "DIV"); ("attributes", VRef 2);
               ("properties", VRef 0); ("children", VRef 1)]]) /\
  [JObj [("className", VStr "x")];
   JArr [VStr "text"] [];
   JObj [];
   JObj [("nodeName", VStr "DIV"); ("attributes", VRef 2);
         ("properties", VRef 0); ("children", VRef 1)]]
  = [JObj [("className", VStr "x")];
     JArr [VStr "text"] [];
     JObj [];
     JObj [("nodeName", VStr "DIV"); ("attributes", VRef 2);
           ("properties", VRef 0); ("children", VRef 1)]].
Proof.
  assert (H1 : render (N := node) new_Renderer 2 (VRef 3)
                 [JObj [("className", VStr "x")];
                  JArr [VStr "text"] [];
                  JObj [];
                  JObj [("nodeName", VStr "DIV"); ("attributes", VRef 2);
                        ("properties", VRef 0); ("children", VRef 1)]]
               = Ok (Element None (VStr "DIV") [("className", VStr "x")]
                       [Text (VStr "text")],
                     [JObj [("className", VStr "x")];
                      JArr [VStr "text"] [];
                      JObj [];
                      JObj [("nodeName", VStr "DIV"); ("attributes", VRef 2);
                            ("properties", VRef 0); ("children", VRef 1)]]))
    by (vm_compute; reflexivity).
  exact (conj H1 (render_leaves_store new_Renderer 2 _ _ _ _ H1)).
Defined.

(** Whatever [h] returns, [render] raises a [TypeError] on it: a VNode has
    [tagName] and [properties], and [render] reads [nodeName] and
    [attributes]. *)
Theorem h_result_cannot_be_rendered selector arguments hp v hp'
    (this : Renderer) fuel :
  Forall (allocated hp) arguments ->
  h selector arguments hp = Ok (v, hp') ->
  render (N := node) this (S fuel) v hp' = Throw TypeError.
Proof.
  intros Hall E.
  destruct (h_Ok_inv _ _ _ _ _ Hall E)
    as (parts & hp0 & l & _ & _ & _ & [o Ho] & -> & ->).
  apply render_VNode_raises. eapply vnode_store_is_VNode; eauto.
Qed.

Lemma h_result_cannot_be_rendered_witness :
  Forall (allocated xml_store) [VRef 0] /\
  h "test" [VRef 0] xml_store
  = Ok (VRef 2,
        xml_store
        ++ [JArr [] [];
            JObj [("tagName", VStr "test"); ("properties", VRef 0);
                  ("children", VRef 1)]]) /\
  render (N := node) new_Renderer 1 (VRef 2)
    (xml_store
     ++ [JArr [] [];
         JObj [("tagName", VStr "test"); ("properties", VRef 0);
               ("children", VRef 1)]])
  = Throw TypeError.
Proof.
  assert (H1 : Forall (allocated xml_store) [VRef 0]) by (repeat constructor).
  assert (H2 : h "test" [VRef 0] xml_store
               = Ok (VRef 2,
                     xml_store
                     ++ [JArr [] [];
                         JObj [("tagName", VStr "test");
                               ("properties", VRef 0);
                               ("children", VRef 1)]]))
    by reflexivity.
  exact (conj H1 (conj H2
           (h_result_cannot_be_rendered "test" _ _ _ _ new_Renderer 0
              H1 H2))).
Defined.

Lemma js_get_object l fs k hp :
  hp !! l = Some (JObj fs) ->
  js_get (VRef l) k hp = Ok (default VUndefined (get_field k fs), hp).
Proof. intros Hl. simpl. now rewrite (lookup_fields_at _ _ _ Hl). Qed.

Lemma copy_attributes (this : Renderer) hp entries ns name attrs cs :
  foldM (copy_attribute this) entries (Element ns name attrs cs) hp
  = Ok (Element ns name (attrs ++ formatted_attributes this hp entries) cs,
        hp).
Proof.
  revert attrs. induction entries as [|[k x] entries IH]; intros attrs.
  - unfold formatted_attributes. simpl. now rewrite app_nil_r.
  - cbn [foldM]. unfold formatted_attributes. cbn [List.filter fst].
    unfold bind at 1. cbn [copy_attribute].
    destruct (String.eqb k "xmlns"); cbn [negb].
    + apply IH.
    + unfold bind at 1, get_heap, ret. cbn [setAttribute stub_document].
      rewrite IH. rewrite <- app_assoc. reflexivity.
Qed.

Lemma append_texts (this : Renderer) fuel hp texts ns name attrs cs :
  foldM (fun n c => let* d := render this (S fuel) c in
                    ret (appendChild n d))
    (map VStr texts) (Element ns name attrs cs) hp
  = Ok (Element ns name attrs (cs ++ map (fun s => Text (VStr s)) texts), hp).
Proof.
  revert cs. induction texts as [|t texts IH]; intros cs.
  - simpl. now rewrite app_nil_r.
  - cbn [map foldM]. unfold bind at 1. cbn. rewrite IH.
    now rewrite <- app_assoc.
Qed.



(** What that comes to: the [circle] in the SVG namespace, [style]
    formatted, [xmlns] not among the attributes. *)
Lemma render_circle :
  render new_Renderer 2 (VRef 4) circle_store
  = Ok (Element (Some (VStr SVG_NS)) (VStr "circle")
          [("style", VStr "color:red;width:1px"); ("id", VStr "c")]
          [Text (VStr "a"); Text (VStr "b")],
        circle_store).
Proof. vm_compute. reflexivity. Qed.

(** ** The class name of a highlighter *)

Lemma app_cons c r s : String c r +:+ s = String c (r +:+ s).
Proof. reflexivity. Qed.

Lemma is_upper_lower_char c : is_upper (lower_char c) = false.
Proof. destruct c as [[] [] [] [] [] [] [] []]; reflexivity. Qed.

Lemma lower_char_upper_char c :
  is_lower c = true -> lower_char (upper_char c) = c.
Proof.
  destruct c as [[] [] [] [] [] [] [] []]; intros H;
    first [discriminate H | reflexivity].
Qed.

Lemma is_upper_upper_char c :
  is_lower c = true -> is_upper (upper_char c) = true.
Proof.
  destruct c as [[] [] [] [] [] [] [] []]; intros H;
    first [discriminate H | reflexivity].
Qed.

Lemma dash_lower_runs_no_upper b text :
  all_chars not_upper (dash_lower_runs b text) = true.
Proof.
  revert b. induction text as [|c r IH]; intros b; [reflexivity|].
  assert (Hl : not_upper (lower_char c) = true)
    by (unfold not_upper; now rewrite is_upper_lower_char).
  cbn [dash_lower_runs]. destruct (is_upper c) eqn:E.
  - destruct b; cbn [all_chars]; rewrite Hl, IH; reflexivity.
  - cbn [all_chars]. rewrite IH. unfold not_upper. now rewrite E.
Qed.

Lemma all_chars_substr p n s :
  all_chars p s = true -> all_chars p (substr n s) = true.
Proof.
  revert s. induction n as [|n IH]; intros s H; [now destruct s|].
  destruct s as [|c r]; [done|]. simpl in H.
  apply andb_prop in H as [_ H]. now apply IH.
Qed.

(** [toKebabCase] never returns an upper-case letter. *)
Theorem toKebabCase_no_upper text :
  all_chars not_upper (toKebabCase text) = true.
Proof. apply all_chars_substr, dash_lower_runs_no_upper. Qed.

Lemma dash_lower_runs_lower b text :
  all_chars not_upper text = true -> dash_lower_runs b text = text.
Proof.
  revert b. induction text as [|c r IH]; intros b H; [reflexivity|].
  simpl in H. apply andb_prop in H as [Hc Hr]. unfold not_upper in Hc.
  cbn [dash_lower_runs]. destruct (is_upper c); [discriminate|].
  now rewrite IH.
Qed.



Lemma dash_lower_runs_tail b r rest :
  r <> "" -> all_chars not_upper r = true ->
  dash_lower_runs b (r +:+ rest) = r +:+ dash_lower_runs false rest.
Proof.
  revert b. induction r as [|c r IH]; intros b Hne H; [done|].
  simpl in H. apply andb_prop in H as [Hc Hr]. unfold not_upper in Hc.
  rewrite !app_cons. cbn [dash_lower_runs].
  destruct (is_upper c); [discriminate|]. f_equal.
  destruct r as [|d r']; [reflexivity|]. now apply IH.
Qed.

Lemma dash_lower_runs_word w rest :
  lower_word w ->
  dash_lower_runs false (capitalize w +:+ rest)
  = "-" +:+ w +:+ dash_lower_runs false rest.
Proof.
  destruct w as [|c r]; [done|]. intros (Hc & Hne & Hr).
  cbn [capitalize]. rewrite !app_cons. cbn [dash_lower_runs].
  rewrite (is_upper_upper_char _ Hc), (lower_char_upper_char _ Hc).
  now rewrite dash_lower_runs_tail.
Qed.

Lemma dash_lower_runs_words ws :
  Forall lower_word ws ->
  dash_lower_runs false (concat_strings (map capitalize ws))
  = concat_strings (map (fun w => "-" +:+ w) ws).
Proof.
  induction 1 as [|w ws Hw Hws IH]; [reflexivity|].
  cbn [map concat_strings]. rewrite (dash_lower_runs_word _ _ Hw), IH.
  reflexivity.
Qed.

Lemma join_dash ws w :
  join_strings "-" (w :: ws)
  = w +:+ concat_strings (map (fun w => "-" +:+ w) ws).
Proof.
  revert w. induction ws as [|x ws IH]; intros w.
  - cbn [join_strings map concat_strings].
    induction w as [|c r IHw]; [reflexivity|]. rewrite app_cons.
    now rewrite <- IHw.
  - change (join_strings "-" (w :: x :: ws))
      with (w +:+ "-" +:+ join_strings "-" (x :: ws)).
    rewrite IH. reflexivity.
Qed.

(** What it is written for: of a camel-case name, words of at least two
    characters each with a capital first letter, it makes the words in
    lower case joined by dashes. *)
Theorem toKebabCase_camel_case ws :
  Forall lower_word ws ->
  toKebabCase (concat_strings (map capitalize ws)) = join_strings "-" ws.
Proof.
  intros H. unfold toKebabCase. rewrite (dash_lower_runs_words _ H).
  destruct ws as [|w ws]; [reflexivity|].
  cbn [map concat_strings]. rewrite join_dash. reflexivity.
Qed.

Lemma toKebabCase_camel_case_witness :
  Forall lower_word ["box"; "model"; "highlighter"] /\
  toKebabCase
    (concat_strings (map capitalize ["box"; "model"; "highlighter"]))
  = join_strings "-" ["box"; "model"; "highlighter"].
Proof.
  assert (H1 : Forall lower_word ["box"; "model"; "highlighter"])
    by (repeat constructor; discriminate).
  exact (conj H1 (toKebabCase_camel_case _ H1)).
Defined.

Lemma toKebabCase_BoxModelHighlighter :
  toKebabCase "BoxModelHighlighter" = "box-model-highlighter"
  /\ highlighter_className "BoxModelHighlighter" = "box-model".
Proof. split; reflexivity. Qed.

(** ** The constructor of a highlighter *)

(** The constructor of [BaseHighlighter] never gets past its container:
    whatever the type name, [DOM.div] returns a VNode for it and
    [renderer.render] raises a [TypeError] on that VNode. *)
Theorem BaseHighlighter_container_raises typeName fuel hp :
  BaseHighlighter_container (S fuel) typeName hp = Throw TypeError.
Proof.
  unfold BaseHighlighter_container.
  set (f := ".highlighter-container." +:+ highlighter_className typeName).
  assert (Hdiv : DOM_call "div" [VStr f] = h "div" [VStr f])
    by (apply DOM_call_html; by_computation).
  rewrite Hdiv.
  assert (Hsel : is_Some (matchSelector ("div" +:+ f)))
    by (apply matchSelector_is_Some; right; reflexivity).
  destruct Hsel as [parts Hparts].
  assert (E : h "div" [VStr f] hp
              = Ok (VRef (S (S (length hp))),
                    vnode_store parts (length hp) [] (hp ++ [JObj []]) [])).
  { change (h "div" [VStr f] hp)
      with (createVNode ("div" +:+ f) VUndefined [] hp).
    now apply createVNode_new. }
  rewrite (bind_Ok _ _ _ _ _ E).
  apply render_VNode_raises.
  replace (S (S (length hp))) with (S (length (hp ++ [JObj []])))
    by (rewrite length_app; simpl; lia).
  apply (vnode_store_is_VNode parts (length hp) (JObj [])).
  now rewrite list_lookup_middle.
Qed.

(** ** Further worked instances *)

Lemma selector_names_are_clean_witness :
  matchSelector "div#a.b c.d" = Some ["div"; "#a"; ".b c"; ".d"] /\
  Forall (fun c => c <> "" /\ all_chars not_hash_dot c = true)
    (class_names ["div"; "#a"; ".b c"; ".d"])
  /\ (selector_id ["div"; "#a"; ".b c"; ".d"] = ""
      \/ selector_id ["div"; "#a"; ".b c"; ".d"] <> ""
         /\ all_chars not_hash_dot (selector_id ["div"; "#a"; ".b c"; ".d"])
            = true
         /\ "#" +:+ selector_id ["div"; "#a"; ".b c"; ".d"]
            ∈ ["div"; "#a"; ".b c"; ".d"]).
Proof.
  assert (H1 : matchSelector "div#a.b c.d"
               = Some ["div"; "#a"; ".b c"; ".d"]) by reflexivity.
  exact (conj H1 (selector_names_are_clean "div#a.b c.d" _ H1)).
Defined.

(** [matchSelector] returns [null] exactly for the selectors that are not
    empty and in which no token starts: no word character, and no [#] or
    [.] followed by a character other than these two. *)
Theorem matchSelector_null_iff selector :
  matchSelector selector = None
  <-> selector <> "" /\ has_token selector = false.
Proof. apply matchSelector_None. Qed.

(** A selector that is empty or made of [#id] and [.class] tokens only
    gives a [DIV], in any store. *)
Theorem h_fragments_give_DIV selector parts hp :
  matchSelector selector = Some parts ->
  forallb is_fragment parts = true ->
  exists v hp',
    h selector [] hp = Ok (v, hp') /\
    prop hp' v "tagName" = Some (VStr "DIV").
Proof. apply h_fragments_only. Qed.

Lemma h_fragments_give_DIV_witness :
  matchSelector "#foo.bar" = Some ["#foo"; ".bar"] /\
  forallb is_fragment ["#foo"; ".bar"] = true /\
  exists v hp',
    h "#foo.bar" [] [] = Ok (v, hp') /\
    prop hp' v "tagName" = Some (VStr "DIV").
Proof.
  assert (H1 : matchSelector "#foo.bar" = Some ["#foo"; ".bar"])
    by reflexivity.
  assert (H2 : forallb is_fragment ["#foo"; ".bar"] = true) by reflexivity.
  exact (conj H1 (conj H2 (h_fragments_give_DIV "#foo.bar" _ [] H1 H2))).
Defined.

(** With a [properties] argument that is not an object the loop over the
    tokens leaves the store alone, when it gets through. *)
Lemma part_steps_primitive p parts st hp :
  (forall l, p <> VRef l) ->
  foldM (part_step p) parts st hp = Throw TypeError
  \/ exists st', foldM (part_step p) parts st hp = Ok (st', hp).
Proof.
  intros Hprim.
  assert (Hset : forall k x hp0, js_set p k x hp0 = Throw TypeError).
  { intros k x hp0. destruct p; try reflexivity. now destruct (Hprim l). }
  revert st. induction parts as [|part parts IH]; intros st; [right; eauto|].
  cbn [foldM]. unfold bind at 1. unfold part_step.
  destruct (first_is "#" part); [apply IH|].
  destruct (first_is "." part); [apply IH|].
  destruct (startsWith part "svg:").
  - left. unfold bind. now rewrite Hset.
  - destruct (String.eqb part "svg"); unfold bind, when.
    + left. now rewrite Hset.
    + apply IH.
Qed.

Lemma createVNode_primitive_TypeError selector p args hp :
  truthy p = true ->
  (forall l, p <> VRef l) ->
  createVNode selector p args hp = Throw TypeError.
Proof.
  intros Hp Hprim.
  assert (Hin : forall k hp0, js_in k p hp0 = Throw TypeError).
  { intros k hp0. destruct p; try reflexivity. now destruct (Hprim l). }
  assert (Hget : forall k hp0, js_get p k hp0 = Ok (VUndefined, hp0)).
  { intros k hp0. destruct p; try reflexivity; try discriminate.
    now destruct (Hprim l). }
  unfold createVNode. rewrite Hp.
  rewrite (bind_Ok (ret p) _ hp p hp eq_refl).
  destruct (matchSelector selector) as [parts|]; [|reflexivity].
  rewrite (bind_Ok (ret parts) _ hp parts hp eq_refl).
  destruct (part_steps_primitive p parts (Locals "" [] "div") hp Hprim)
    as [E|[st E]]; [now apply bind_Throw|].
  rewrite (bind_Ok _ _ _ _ _ E).
  destruct (truthy (VStr (id st))).
  - apply bind_Throw, bind_Throw, Hin.
  - rewrite (bind_Ok (ret tt) _ hp tt hp eq_refl).
    rewrite (bind_Ok _ _ _ _ _ (Hget "xmlns" hp)).
    apply bind_Throw, Hin.
Qed.

(** [h] raises a [TypeError], whatever the selector and the other
    arguments, on every argument list that is not [supported]: when the
    first argument is [true] or a number other than 0, and when it is a
    string and the next argument is [true], a number other than 0 or a
    string that is not empty.  Two text children in a row are such a
    call. *)
Theorem h_raises_on_unsupported_arguments selector arguments hp :
  supported arguments = false ->
  h selector arguments hp = Throw TypeError.
Proof.
  intros Hsup. rewrite h_resolve.
  destruct (guard_raises arguments) eqn:Hguard; [reflexivity|].
  revert Hsup Hguard. unfold supported, falsy_or_object, guard_raises, resolve.
  destruct (hd VUndefined arguments) as [| |b|n|f|l] eqn:Hfirst;
    simpl; try discriminate.
  - destruct b; [|discriminate]. intros _ _.
    now apply createVNode_primitive_TypeError.
  - destruct (n =? 0)%Z eqn:Hn; [discriminate|]. intros _ _.
    apply createVNode_primitive_TypeError; [|done].
    simpl. now rewrite Hn.
  - destruct (truthy _), (is_ref _); simpl; congruence.
Qed.

Lemma h_raises_on_unsupported_arguments_witness :
  supported [VStr "a"; VStr "b"] = false /\
  h "div" [VStr "a"; VStr "b"] [] = Throw TypeError.
Proof.
  assert (H1 : supported [VStr "a"; VStr "b"] = false) by reflexivity.
  exact (conj H1 (h_raises_on_unsupported_arguments "div" _ [] H1)).
Defined.
